(** * A shallow embedding of the sales-assistant backend (main.py)

    The backend is a FastAPI application with three working endpoints:
    [analyze_transcript], [generate_icebreaker] and [get_feed], and one
    helper, [call_ai], which wraps the hosted language model.  The Groq
    model and the Supabase store are external; their answers are the
    variables of [Section Backend], and every call made to them is
    recorded in a trace, so that statements of the form "no call is made"
    or "the record is persisted" can be written down. *)

From Stdlib Require Import List String Ascii ZArith Bool Lia DecimalString.
From Stdlib Require Import Sorted Permutation PeanoNat.
Import ListNotations.
Local Open Scope string_scope.
Local Open Scope list_scope.
Set Warnings "-register-all".

(** ** Python values

    Everything that crosses the wire is JSON, and the handlers only build
    and read dicts, so the values of the model are JSON trees.  A Python
    [str] is represented by its UTF-8 bytes: comparing two such byte
    strings lexicographically gives the same answer as Python's comparison
    of the code point sequences.  JSON numbers are integers here. *)

Inductive json : Type :=
| JNull
| JBool (b : bool)
| JNum (n : Z)
| JStr (s : string)
| JArr (l : list json)
| JObj (kv : list (string * json)).

(** A dict with string keys, in insertion order. *)
Definition dict := list (string * json).

(** The line feed inside the triple-quoted f-strings. *)
Definition nl : string := String (ascii_of_nat 10) EmptyString.

(** ** Exceptions *)

Inductive exn : Type :=
| ClientError (msg : string)      (* raised inside the groq or supabase client; [msg] is [str(e)] *)
| KeyError (key : string)
| TypeError (msg : string)
| HTTPException (status_code : Z) (detail : string).

Definition str_of_Z (n : Z) : string := NilEmpty.string_of_int (Z.to_int n).

(** [str(e)] *)
Definition str_exn (e : exn) : string :=
  match e with
  | ClientError msg => msg
  | KeyError key => "'" ++ key ++ "'"
  | TypeError msg => msg
  | HTTPException status_code detail => str_of_Z status_code ++ ": " ++ detail
  end.

Inductive result (A : Type) : Type :=
| Return (a : A)
| Raise (e : exn).
Arguments Return {A} a.
Arguments Raise {A} e.

(** ** Dict and string primitives *)

(** [d.get(key, default)] *)
Fixpoint get (d : dict) (key : string) (default : json) : json :=
  match d with
  | [] => default
  | (k, v) :: d' => if String.eqb k key then v else get d' key default
  end.

(** [d[key]] *)
Fixpoint getitem (d : dict) (key : string) : result json :=
  match d with
  | [] => Raise (KeyError key)
  | (k, v) :: d' => if String.eqb k key then Return v else getitem d' key
  end.

(** Truth value of a [str], and of [os.getenv]'s [Optional[str]]. *)
Definition truthy_str (s : string) : bool :=
  match s with EmptyString => false | _ => true end.

Definition truthy_env (v : option string) : bool :=
  match v with None => false | Some s => truthy_str s end.

Definition type_name (v : json) : string :=
  match v with
  | JNull => "NoneType"
  | JBool _ => "bool"
  | JNum _ => "int"
  | JStr _ => "str"
  | JArr _ => "list"
  | JObj _ => "dict"
  end.

(** ** Ordering of sort keys

    [a < b] as [list.sort] evaluates it on two keys.  Strings compare
    with strings, numbers (and booleans, which are ints) with numbers;
    [None] and dicts support no ordering, and a string never compares
    with a number.  Lists are not expected in a timestamp column and are
    treated as unordered as well. *)

Definition as_int (v : json) : option Z :=
  match v with
  | JBool b => Some (Z.b2z b)
  | JNum n => Some n
  | _ => None
  end.

Definition lt_type_error (a b : json) : exn :=
  TypeError ("'<' not supported between instances of '" ++ type_name a
             ++ "' and '" ++ type_name b ++ "'").

Definition py_lt (a b : json) : result bool :=
  match a, b with
  | JStr s, JStr t => Return (String.ltb s t)
  | _, _ =>
      match as_int a, as_int b with
      | Some m, Some n => Return (Z.ltb m n)
      | _, _ => Raise (lt_type_error a b)
      end
  end.

(** [a >= b] on the same values. *)
Definition py_ge (a b : json) : result bool :=
  match a, b with
  | JStr s, JStr t => Return (String.leb t s)
  | _, _ =>
      match as_int a, as_int b with
      | Some m, Some n => Return (Z.geb m n)
      | _, _ => Raise (TypeError ("'>=' not supported between instances of '"
                                  ++ type_name a ++ "' and '" ++ type_name b ++ "'"))
      end
  end.

(** ** Requests (the pydantic models) *)

Record TranscriptRequest : Type := {
  transcript : string;
  company_name : string;
  attendees : string;
  date : string
}.

Record IcebreakerRequest : Type := {
  username : string;
  role : string;
  linkedin_bio : string;
  deck_url : string
}.

(** The class-level defaults: an optional field left out of the body is
    the empty string. *)
Definition or_default (v : option string) : string :=
  match v with Some s => s | None => "" end.

Definition TranscriptRequest_init (transcript0 : string)
    (company_name0 attendees0 date0 : option string) : TranscriptRequest :=
  {| transcript := transcript0;
     company_name := or_default company_name0;
     attendees := or_default attendees0;
     date := or_default date0 |}.

Definition IcebreakerRequest_init (username0 role0 linkedin_bio0 : string)
    (deck_url0 : option string) : IcebreakerRequest :=
  {| username := username0;
     role := role0;
     linkedin_bio := linkedin_bio0;
     deck_url := or_default deck_url0 |}.

(** ** The two prompts (the f-strings of the handlers) *)

Definition transcript_prompt (data : TranscriptRequest) : string :=
    nl ++
    "        Review this transcript for " ++ data.(company_name) ++ "." ++ nl ++
    "        Attendees: " ++ data.(attendees) ++ nl ++
    "        Date: " ++ data.(date) ++ nl ++
    nl ++
    "        Transcript:" ++ nl ++
    "        " ++ data.(transcript) ++ nl ++
    nl ++
    "        Share:" ++ nl ++
    "        1. What I did well (and why)" ++ nl ++
    "        2. What I could do better next time" ++ nl ++
    "        3. Recommendations for improvement" ++ nl ++
    "        ".

Definition icebreaker_prompt (data : IcebreakerRequest) : string :=
    nl ++
    "        You are a sales expert analyzing a LinkedIn prospect for personalized outreach. Here's the prospect information:" ++ nl ++
    nl ++
    "        **Prospect Name:** " ++ data.(username) ++ nl ++
    "        **Current Role:** " ++ data.(role) ++ nl ++
    "        " ++ nl ++
    "        **LinkedIn About Section:**" ++ nl ++
    "        " ++ data.(linkedin_bio) ++ nl ++
    nl ++
    "        **Pitch Deck Context:** " ++
      (if truthy_str data.(deck_url) then data.(deck_url) else "No pitch deck provided") ++ nl ++
    nl ++
    "        Based on this information, provide a comprehensive icebreaker analysis with the following sections:" ++ nl ++
    nl ++
    "        ## 1. BUYING SIGNALS" ++ nl ++
    "        - Identify 3-5 specific indicators that suggest " ++ data.(username) ++ " might be interested in purchasing solutions" ++ nl ++
    "        - Look for pain points, growth initiatives, technology mentions, or business challenges" ++ nl ++
    "        - Reference their role as " ++ data.(role) ++ " and how it relates to potential needs" ++ nl ++
    nl ++
    "        ## 2. DISCOVERY TRIGGERS" ++ nl ++
    "        - Find 3-4 conversation starters based on their background" ++ nl ++
    "        - Identify shared connections, interests, or experiences" ++ nl ++
    "        - Highlight recent achievements or career moves worth mentioning" ++ nl ++
    nl ++
    "        ## 3. SMART QUESTIONS" ++ nl ++
    "        - Create 4-5 thoughtful, role-specific questions for " ++ data.(role) ++ nl ++
    "        - Questions should demonstrate industry knowledge and genuine interest" ++ nl ++
    "        - Avoid generic questions - make them specific to their situation" ++ nl ++
    nl ++
    "        ## 4. PERSONALIZED OUTREACH APPROACH" ++ nl ++
    "        - Suggest the best way to approach " ++ data.(username) ++ " based on their communication style" ++ nl ++
    "        - Recommend timing and channel preferences" ++ nl ++
    "        - Identify what value proposition would resonate most" ++ nl ++
    nl ++
    "        ## 5. REFLECTION QUESTIONS" ++ nl ++
    "        - What are the top 3 things " ++ data.(username) ++ " would likely care about most?" ++ nl ++
    "        - What's unclear about their current situation that needs discovery?" ++ nl ++
    "        - What potential objections might they have and how to address them?" ++ nl ++
    nl ++
    "        Make the analysis specific to " ++ data.(username) ++ " as a " ++ data.(role) ++ " and avoid generic advice." ++ nl ++
    "        ".

(** ** Calls to the outside world and the monad that threads them

    An action takes the trace of external calls made so far and gives a
    value or an exception, together with the extended trace. *)

Inductive event : Type :=
| EvChatCreate (model : string) (max_tokens : Z) (role content : string)
| EvInsert (table : string) (row : dict)
| EvSelect (table : string) (order_column : string) (desc : bool) (limit : Z).

Definition trace := list event.

Definition M (A : Type) : Type := trace -> result A * trace.

Definition ret {A} (a : A) : M A := fun t => (Return a, t).

Definition raise {A} (e : exn) : M A := fun t => (Raise e, t).

Definition bind {A B} (m : M A) (k : A -> M B) : M B :=
  fun t =>
    match m t with
    | (Return a, t') => k a t'
    | (Raise e, t') => (Raise e, t')
    end.

(** [try: m  except Exception as e: h e] *)
Definition try_except {A} (m : M A) (h : exn -> M A) : M A :=
  fun t =>
    match m t with
    | (Return a, t') => (Return a, t')
    | (Raise e, t') => h e t'
    end.

(** A computation that touches nothing outside. *)
Definition lift {A} (r : result A) : M A := fun t => (r, t).

(** An external call: it is logged, then answers. *)
Definition call {A} (ev : event) (answer : result A) : M A :=
  fun t => (answer, t ++ [ev]).

Notation "x <- m ;; k" := (bind m (fun x => k))
  (at level 61, m at next level, right associativity).

(** A [for] loop that appends one computed element per input element. *)
Fixpoint for_each {A B} (f : A -> result B) (l : list A) : result (list B) :=
  match l with
  | [] => Return []
  | x :: l' =>
      match f x with
      | Raise e => Raise e
      | Return y =>
          match for_each f l' with
          | Raise e => Raise e
          | Return ys => Return (y :: ys)
          end
      end
  end.

(** ** [list.sort(key=..., reverse=True)]

    Python's sort is stable, also with [reverse=True]: elements whose keys
    are equal keep their original order.  A stable sort has one possible
    outcome, so it is written here as insertion from the right; a key
    comparison that raises aborts the sort. *)

Section Sort.
Context {A : Type}.
Variable key : A -> json.

Fixpoint insert_desc (x : A) (l : list A) : result (list A) :=
  match l with
  | [] => Return [x]
  | y :: l' =>
      match py_lt (key x) (key y) with
      | Raise e => Raise e
      | Return false => Return (x :: y :: l')
      | Return true =>
          match insert_desc x l' with
          | Raise e => Raise e
          | Return r => Return (y :: r)
          end
      end
  end.

Fixpoint sort_reverse (l : list A) : result (list A) :=
  match l with
  | [] => Return []
  | x :: l' =>
      match sort_reverse l' with
      | Raise e => Raise e
      | Return s => insert_desc x s
      end
  end.

(** [a] may stand immediately before [b] in a descending list. *)
Definition not_below (a b : A) : Prop := py_lt (key a) (key b) = Return false.

(** The key of [x] is a string. *)
Definition string_keyed (x : A) : Prop := exists s, key x = JStr s.

End Sort.

(** ** HTTP responses *)

Record response : Type := { status : Z; body : json }.

(** What FastAPI sends for a handler's outcome: the returned dict as JSON
    with status 200, or the status and detail of an [HTTPException]. *)
Definition respond (r : result json) : response :=
  match r with
  | Return v => {| status := 200; body := v |}
  | Raise (HTTPException code detail) =>
      {| status := code; body := JObj [("detail", JStr detail)] |}
  | Raise _ => {| status := 500; body := JStr "Internal Server Error" |}
  end.

Definition serve (handler : M json) (t : trace) : response * trace :=
  let (r, t') := handler t in (respond r, t').

(** ** The application *)

Section Backend.

(** The environment variable [GROQ_API_KEY], as [os.getenv] reads it. *)
Variable GROQ_API_KEY : option string.

(** The hosted model: for a prompt, the [message.content] of the first
    choice, or the exception raised by the client call or by the
    extraction of the text from a malformed response. *)
Variable groq_chat : string -> result json.

(** The store: [.insert(row).execute().data] and
    [.select(...).order(...).limit(...).execute().data] on a table. *)
Variable store_insert : string -> dict -> result (list dict).
Variable store_select : string -> result (list dict).

(** [repr] of a list or dict, which an f-string would print for a
    column holding one; its text plays no part below. *)
Variable py_repr : json -> string.

(** [groq_client] is created at start-up only when the key is truthy. *)
Definition groq_client : option unit :=
  if truthy_env GROQ_API_KEY then Some tt else None.

Definition truthy_client (c : option unit) : bool :=
  match c with Some _ => true | None => false end.

(** The text an f-string puts for a value. *)
Definition py_str (v : json) : string :=
  match v with
  | JNull => "None"
  | JBool true => "True"
  | JBool false => "False"
  | JNum n => str_of_Z n
  | JStr s => s
  | _ => py_repr v
  end.

Definition chat_completions_create (prompt : string) : M json :=
  call (EvChatCreate "llama-3.1-8b-instant" 1000 "user" prompt) (groq_chat prompt).

Definition table_insert (table : string) (row : dict) : M (list dict) :=
  call (EvInsert table row) (store_insert table row).

Definition table_select (table : string) : M (list dict) :=
  call (EvSelect table "created_at" true 20) (store_select table).

Definition call_ai (prompt : string) : M json :=
  if negb (truthy_env GROQ_API_KEY) || negb (truthy_client groq_client) then
    ret (JObj [("summary", JStr "Error: GROQ_API_KEY not configured. Please set your Groq API key in the .env file.");
               ("insights", JArr [JStr "AI configuration needed"]);
               ("status", JStr "error")])
  else
    try_except
      (ai_text <- chat_completions_create prompt ;;
       let result := JObj [("summary", ai_text);
                           ("insights", JArr []);
                           ("status", JStr "success")] in
       ret result)
      (fun e =>
         ret (JObj [("summary", JStr ("Error calling Groq API: " ++ str_exn e));
                    ("insights", JArr []);
                    ("status", JStr "error")])).

Definition health : M json := ret (JObj [("status", JStr "ok")]).

(** [result.data[0]["id"] if result.data else None] *)
Definition first_id (data : list dict) : result json :=
  match data with
  | [] => Return JNull
  | row :: _ => getitem row "id"
  end.

Definition analyze_transcript (data : TranscriptRequest) : M json :=
  try_except
    (let prompt := transcript_prompt data in
     ai_response <- call_ai prompt ;;
     result <- table_insert "transcripts"
                 [("company_name", JStr data.(company_name));
                  ("attendees", JStr data.(attendees));
                  ("date", JStr data.(date));
                  ("transcript", JStr data.(transcript));
                  ("analysis", ai_response)] ;;
     id <- lift (first_id result) ;;
     ret (JObj [("result", ai_response); ("id", id)]))
    (fun e => raise (HTTPException 500 (str_exn e))).

Definition generate_icebreaker (data : IcebreakerRequest) : M json :=
  try_except
    (let prompt := icebreaker_prompt data in
     ai_response <- call_ai prompt ;;
     result <- table_insert "icebreakers"
                 [("username", JStr data.(username));
                  ("role", JStr data.(role));
                  ("linkedin_bio", JStr data.(linkedin_bio));
                  ("deck_url", JStr data.(deck_url));
                  ("analysis", ai_response)] ;;
     id <- lift (first_id result) ;;
     ret (JObj [("result", ai_response); ("id", id)]))
    (fun e => raise (HTTPException 500 (str_exn e))).

(** The body of the first loop of [get_feed]. *)
Definition transcript_item (item : dict) : result dict :=
  match getitem item "id" with
  | Raise e => Raise e
  | Return id =>
      Return [("id", id);
              ("type", JStr "transcript");
              ("title", get item "company_name" (JStr "Unknown Company"));
              ("description", get item "attendees" (JStr ""));
              ("date", get item "date" (JStr ""));
              ("analysis", get item "analysis" (JObj []));
              ("created_at", get item "created_at" (JStr ""))]
  end.

(** The body of the second loop. *)
Definition icebreaker_item (item : dict) : result dict :=
  let username := get item "username" (JStr "Unknown User") in
  let role := get item "role" (JStr "Unknown Role") in
  match getitem item "id" with
  | Raise e => Raise e
  | Return id =>
      Return [("id", id);
              ("type", JStr "icebreaker");
              ("title", JStr ("LinkedIn Icebreaker - " ++ py_str username));
              ("description", JStr (py_str role ++ " • Sales Outreach Analysis"));
              ("analysis", get item "analysis" (JObj []));
              ("created_at", get item "created_at" (JStr ""))]
  end.

(** [lambda x: x.get("created_at", "")] *)
Definition created_at_key (x : dict) : json := get x "created_at" (JStr "").

Definition get_feed : M json :=
  try_except
    (transcripts_data <- table_select "transcripts" ;;
     icebreakers_data <- table_select "icebreakers" ;;
     from_transcripts <- lift (for_each transcript_item transcripts_data) ;;
     from_icebreakers <- lift (for_each icebreaker_item icebreakers_data) ;;
     let feed_items := from_transcripts ++ from_icebreakers in
     feed_items <- lift (sort_reverse created_at_key feed_items) ;;
     ret (JObj [("items", JArr (map JObj feed_items))]))
    (fun e => raise (HTTPException 500 (str_exn e))).

End Backend.

(** ** Words of the statements *)

Definition feed_body (feed : list dict) : json := JObj [("items", JArr (map JObj feed))].

(** In the list handed to the sort, no icebreaker item stands before a
    transcript item. *)
Definition newer_if_ahead (x y : dict) : Prop :=
  getitem x "type" = Return (JStr "icebreaker") ->
  getitem y "type" = Return (JStr "transcript") ->
  py_lt (created_at_key y) (created_at_key x) = Return true.

(** A row as the store returns it: it has an id, and its [created_at],
    when present, is a string. *)
Definition stored_row (item : dict) : Prop :=
  (exists id, getitem item "id" = Return id) /\ exists s, created_at_key item = JStr s.

Definition chat_event (prompt : string) : event :=
  EvChatCreate "llama-3.1-8b-instant" 1000 "user" prompt.

Definition config_missing_analysis : json :=
  JObj [("summary", JStr "Error: GROQ_API_KEY not configured. Please set your Groq API key in the .env file.");
        ("insights", JArr [JStr "AI configuration needed"]);
        ("status", JStr "error")].

Definition success_analysis (text : json) : json :=
  JObj [("summary", text); ("insights", JArr []); ("status", JStr "success")].

Definition error_analysis (e : exn) : json :=
  JObj [("summary", JStr ("Error calling Groq API: " ++ str_exn e));
        ("insights", JArr []);
        ("status", JStr "error")].

Definition transcript_row (data : TranscriptRequest) (analysis : json) : dict :=
  [("company_name", JStr data.(company_name));
   ("attendees", JStr data.(attendees));
   ("date", JStr data.(date));
   ("transcript", JStr data.(transcript));
   ("analysis", analysis)].

Definition icebreaker_row (data : IcebreakerRequest) (analysis : json) : dict :=
  [("username", JStr data.(username));
   ("role", JStr data.(role));
   ("linkedin_bio", JStr data.(linkedin_bio));
   ("deck_url", JStr data.(deck_url));
   ("analysis", analysis)].

Definition submitted (analysis id : json) : response :=
  {| status := 200; body := JObj [("result", analysis); ("id", id)] |}.

Definition server_error (e : exn) : response :=
  {| status := 500; body := JObj [("detail", JStr (str_exn e))] |}.

(** What a submission does once the analysis [a] is there. *)
Definition after_analysis (ins : string -> dict -> result (list dict))
    (table : string) (row : dict) (a : json) (t1 : trace) : response * trace :=
  match ins table row with
  | Raise e => (server_error e, t1 ++ [EvInsert table row])
  | Return rows =>
      match first_id rows with
      | Raise e => (server_error e, t1 ++ [EvInsert table row])
      | Return id => (submitted a id, t1 ++ [EvInsert table row])
      end
  end.

(** [key in d] *)
Fixpoint contains (d : dict) (key : string) : bool :=
  match d with
  | [] => false
  | (k, _) :: d' => if String.eqb k key then true else contains d' key
  end.

(** ** Templates

    The reading of "every field embedded verbatim in a fixed template":
    a template is a fixed sequence of literal text and named slots, and
    rendering puts the value of the field into each slot as it is. *)

Inductive piece (F : Type) : Type :=
| Lit (s : string)
| Slot (field : F).
Arguments Lit {F} s.
Arguments Slot {F} field.

Definition piece_text {F} (value : F -> string) (p : piece F) : string :=
  match p with
  | Lit s => s
  | Slot field => value field
  end.

Definition render {F} (template : list (piece F)) (value : F -> string) : string :=
  fold_right (fun p rest => String.append (piece_text value p) rest) "" template.

Inductive transcript_field : Type := CompanyName | Attendees | Date | Transcript.

Inductive icebreaker_field : Type := Username | Role | LinkedinBio | DeckUrl.

Definition transcript_value (data : TranscriptRequest) (f : transcript_field) : string :=
  match f with
  | CompanyName => data.(company_name)
  | Attendees => data.(attendees)
  | Date => data.(date)
  | Transcript => data.(transcript)
  end.

Definition icebreaker_value (data : IcebreakerRequest) (f : icebreaker_field) : string :=
  match f with
  | Username => data.(username)
  | Role => data.(role)
  | LinkedinBio => data.(linkedin_bio)
  | DeckUrl => data.(deck_url)
  end.

(** What the icebreaker prompt puts into its slots: the pitch deck slot
    shows a fixed sentence when there is no deck. *)
Definition icebreaker_shown (data : IcebreakerRequest) (f : icebreaker_field) : string :=
  match f with
  | DeckUrl => if truthy_str data.(deck_url) then data.(deck_url) else "No pitch deck provided"
  | _ => icebreaker_value data f
  end.

Definition transcript_template : list (piece transcript_field) :=
  [ Lit nl;
    Lit "        Review this transcript for "; Slot CompanyName; Lit "."; Lit nl;
    Lit "        Attendees: "; Slot Attendees; Lit nl;
    Lit "        Date: "; Slot Date; Lit nl;
    Lit nl;
    Lit "        Transcript:"; Lit nl;
    Lit "        "; Slot Transcript; Lit nl;
    Lit nl;
    Lit "        Share:"; Lit nl;
    Lit "        1. What I did well (and why)"; Lit nl;
    Lit "        2. What I could do better next time"; Lit nl;
    Lit "        3. Recommendations for improvement"; Lit nl;
    Lit "        " ].

Definition icebreaker_template : list (piece icebreaker_field) :=
  [ Lit nl;
    Lit "        You are a sales expert analyzing a LinkedIn prospect for personalized outreach. Here's the prospect information:"; Lit nl;
    Lit nl;
    Lit "        **Prospect Name:** "; Slot Username; Lit nl;
    Lit "        **Current Role:** "; Slot Role; Lit nl;
    Lit "        "; Lit nl;
    Lit "        **LinkedIn About Section:**"; Lit nl;
    Lit "        "; Slot LinkedinBio; Lit nl;
    Lit nl;
    Lit "        **Pitch Deck Context:** "; Slot DeckUrl; Lit nl;
    Lit nl;
    Lit "        Based on this information, provide a comprehensive icebreaker analysis with the following sections:"; Lit nl;
    Lit nl;
    Lit "        ## 1. BUYING SIGNALS"; Lit nl;
    Lit "        - Identify 3-5 specific indicators that suggest "; Slot Username; Lit " might be interested in purchasing solutions"; Lit nl;
    Lit "        - Look for pain points, growth initiatives, technology mentions, or business challenges"; Lit nl;
    Lit "        - Reference their role as "; Slot Role; Lit " and how it relates to potential needs"; Lit nl;
    Lit nl;
    Lit "        ## 2. DISCOVERY TRIGGERS"; Lit nl;
    Lit "        - Find 3-4 conversation starters based on their background"; Lit nl;
    Lit "        - Identify shared connections, interests, or experiences"; Lit nl;
    Lit "        - Highlight recent achievements or career moves worth mentioning"; Lit nl;
    Lit nl;
    Lit "        ## 3. SMART QUESTIONS"; Lit nl;
    Lit "        - Create 4-5 thoughtful, role-specific questions for "; Slot Role; Lit nl;
    Lit "        - Questions should demonstrate industry knowledge and genuine interest"; Lit nl;
    Lit "        - Avoid generic questions - make them specific to their situation"; Lit nl;
    Lit nl;
    Lit "        ## 4. PERSONALIZED OUTREACH APPROACH"; Lit nl;
    Lit "        - Suggest the best way to approach "; Slot Username; Lit " based on their communication style"; Lit nl;
    Lit "        - Recommend timing and channel preferences"; Lit nl;
    Lit "        - Identify what value proposition would resonate most"; Lit nl;
    Lit nl;
    Lit "        ## 5. REFLECTION QUESTIONS"; Lit nl;
    Lit "        - What are the top 3 things "; Slot Username; Lit " would likely care about most?"; Lit nl;
    Lit "        - What's unclear about their current situation that needs discovery?"; Lit nl;
    Lit "        - What potential objections might they have and how to address them?"; Lit nl;
    Lit nl;
    Lit "        Make the analysis specific to "; Slot Username; Lit " as a "; Slot Role; Lit " and avoid generic advice."; Lit nl;
    Lit "        " ].

(** ** Sample requests, rows and environments *)

Definition one_each_select (table : string) : result (list dict) :=
  if String.eqb table "transcripts"
  then Return [[("id", JNum 1); ("company_name", JStr "Acme"); ("created_at", JStr "2024-01-02")]]
  else Return [[("id", JNum 2); ("username", JStr "Jane"); ("role", JStr "CTO");
                ("created_at", JStr "2024-01-03")]].

Definition tie_select (table : string) : result (list dict) :=
  if String.eqb table "transcripts"
  then Return [[("id", JNum 1); ("created_at", JStr "2024-01-02")];
               [("id", JNum 3); ("created_at", JStr "2024-01-01")]]
  else Return [[("id", JNum 2); ("created_at", JStr "2024-01-02")]].

Definition model_down (prompt : string) : result json :=
  Raise (ClientError "Connection error.").

Definition store_assigns_7 (table : string) (row : dict) : result (list dict) :=
  Return [("id", JNum 7) :: row].

Definition jane : IcebreakerRequest :=
  IcebreakerRequest_init "Jane" "CTO" "..." None.

Definition acme : TranscriptRequest :=
  TranscriptRequest_init "Great call, client loved the demo." (Some "Acme") None None.

Definition store_down (table : string) (row : dict) : result (list dict) :=
  Raise (ClientError "connection refused").

Definition reads_down (table : string) : result (list dict) :=
  Raise (ClientError "connection refused").

Definition second_read_down (table : string) : result (list dict) :=
  if String.eqb table "transcripts"
  then Return [[("id", JNum 1); ("created_at", JStr "2024-01-02")]]
  else Raise (ClientError "connection refused").

Definition good_job (prompt : string) : result json := Return (JStr "Good job.").

Definition store_returns_nothing (table : string) (row : dict) : result (list dict) :=
  Return [].

Definition row_without_names : dict :=
  [("id", JNum 4); ("created_at", JStr "2024-01-02")].

Definition row_with_empty_names : dict :=
  [("id", JNum 5); ("company_name", JStr ""); ("username", JStr ""); ("role", JStr "");
   ("created_at", JStr "2024-01-02")].

Definition jane_with_deck : IcebreakerRequest :=
  IcebreakerRequest_init "Jane" "CTO" "..." (Some "x").

(** ** Start-up

    The module-level check of the store credentials: either variable
    unset or empty stops the process with a [ValueError]. *)

Inductive startup_error : Type := ValueError (msg : string).

Definition supabase_env_check (SUPABASE_URL SUPABASE_KEY : option string)
  : option startup_error :=
  if negb (truthy_env SUPABASE_URL) || negb (truthy_env SUPABASE_KEY)
  then Some (ValueError "Supabase URL and KEY must be set in environment variables")
  else None.

(** ** Further words of the statements *)

(** The model requests one run of [call_ai] makes. *)
Definition model_calls (key : option string) (prompt : string) : list event :=
  if truthy_env key then [chat_event prompt] else [].

(** The analysis one run of [call_ai] gives. *)
Definition gateway_analysis (key : option string) (groq : string -> result json)
    (prompt : string) : json :=
  if truthy_env key then
    match groq prompt with
    | Return text => success_analysis text
    | Raise e => error_analysis e
    end
  else config_missing_analysis.

(** An answer is a success, or the server error with a detail text. *)
Definition ok_or_server_error (r : response) : Prop :=
  status r = 200%Z \/ (status r = 500%Z /\ exists d, body r = JObj [("detail", JStr d)]).

(** The kind of a sort key: strings, numbers, or no ordering. *)
Inductive key_kind : Type := StrKey | NumKey.

Definition kind_of (v : json) : option key_kind :=
  match v with
  | JStr _ => Some StrKey
  | JNum _ | JBool _ => Some NumKey
  | _ => None
  end.

(** The item's [created_at] is the string [k]. *)
Definition created_at_is (k : string) (x : dict) : bool :=
  match created_at_key x with
  | JStr s => String.eqb s k
  | _ => false
  end.

(** A row as the store holds it after an insert of [row]: the inserted
    fields, and the [id] and [created_at] the store assigned. *)
Definition stored_as (row : dict) (id created_at : json) (item : dict) : Prop :=
  getitem item "id" = Return id /\
  getitem item "created_at" = Return created_at /\
  forall k v, getitem row k = Return v -> getitem item k = Return v.

Definition store_without_id (table : string) (row : dict) : result (list dict) :=
  Return [row].

Definition store_two_rows (table : string) (row : dict) : result (list dict) :=
  Return [("id", JNum 7) :: row; ("id", JNum 8) :: row].

Definition null_timestamp_select (table : string) : result (list dict) :=
  if String.eqb table "transcripts"
  then Return [[("id", JNum 1); ("created_at", JNull)]]
  else Return [[("id", JNum 2); ("created_at", JStr "2024-01-02")]].

Definition no_id_select (table : string) : result (list dict) :=
  if String.eqb table "transcripts"
  then Return [[("id", JNum 1); ("created_at", JStr "2024-01-02")]]
  else Return [[("username", JStr "Jane"); ("created_at", JStr "2024-01-03")]].

Definition only_transcripts_select (table : string) : result (list dict) :=
  if String.eqb table "transcripts"
  then Return [[("id", JNum 3); ("created_at", JStr "2024-01-03")];
               [("id", JNum 1); ("created_at", JStr "2024-01-02")]]
  else Return [].

(** The feed item's "type" is [ty]. *)
Definition is_type (ty : string) (x : dict) : bool :=
  match getitem x "type" with
  | Return (JStr s) => String.eqb s ty
  | _ => false
  end.

(** The keys of a dict, in order. *)
Definition keys (d : dict) : list string := map fst d.

Definition has_id (item : dict) : Prop := exists id, getitem item "id" = Return id.

(** [a.created_at >= b.created_at] holds. *)
Definition not_older (a b : dict) : Prop :=
  py_ge (created_at_key a) (created_at_key b) = Return true.

Definition null_names_row : dict :=
  [("id", JNum 6); ("company_name", JNull); ("username", JNull); ("role", JNull);
   ("created_at", JStr "2024-01-02")].

Definition acme_stored : dict :=
  ("id", JNum 7) :: ("created_at", JStr "2024-01-02T10:00:00+00:00")
    :: transcript_row acme (success_analysis (JStr "Good job.")).

Definition jane_stored : dict :=
  ("id", JNum 8) :: ("created_at", JStr "2024-01-03T10:00:00+00:00")
    :: icebreaker_row jane (success_analysis (JStr "Good job.")).

(** A transcript submitted without a company name, an icebreaker
    submitted with an empty name and role, and the rows the store holds
    for them after the insert. *)
Definition no_company : TranscriptRequest :=
  TranscriptRequest_init "Great call, client loved the demo." None None None.

Definition no_names : IcebreakerRequest :=
  IcebreakerRequest_init "" "" "..." None.

Definition no_company_stored : dict :=
  ("id", JNum 7) :: ("created_at", JStr "2024-01-02T10:00:00+00:00")
    :: transcript_row no_company (success_analysis (JStr "Good job.")).

Definition no_names_stored : dict :=
  ("id", JNum 8) :: ("created_at", JStr "2024-01-03T10:00:00+00:00")
    :: icebreaker_row no_names (success_analysis (JStr "Good job.")).

(** * Properties *)

(** ** The ordering of keys *)

Lemma string_ltb_leb (s t : string) : String.ltb s t = negb (String.leb t s).
Proof.
  unfold String.ltb, String.leb.
  rewrite (String.compare_antisym s t).
  destruct (String.compare t s); reflexivity.
Qed.

Lemma py_lt_ge (a b : json) :
  py_lt a b = Return false <-> py_ge a b = Return true.
Proof.
  unfold py_lt, py_ge.
  destruct a, b; simpl; try (split; discriminate);
    rewrite ?string_ltb_leb, ?Z.geb_leb, ?Z.ltb_antisym;
    match goal with
    | |- Return (negb ?c) = _ <-> _ => destruct c; simpl; split; congruence
    end.
Qed.

Lemma py_lt_asym (a b : json) :
  py_lt a b = Return true -> py_lt b a = Return false.
Proof.
  unfold py_lt.
  destruct a, b; simpl; try discriminate; intros H; injection H as H; f_equal;
    try (apply Z.ltb_lt in H; apply Z.ltb_ge; lia).
  unfold String.ltb in *. rewrite (String.compare_antisym s0 s).
  destruct (String.compare s s0); simpl in *; congruence.
Qed.

Lemma py_lt_irrefl (a : json) : py_lt a a <> Return true.
Proof.
  intros H. pose proof (py_lt_asym _ _ H). congruence.
Qed.

(** ** The sort *)

Section SortFacts.
Context {A : Type}.
Variable key : A -> json.

Lemma insert_desc_perm (x : A) (l r : list A) :
  insert_desc key x l = Return r -> Permutation (x :: l) r.
Proof.
  revert r. induction l as [|y l IH]; simpl; intros r H.
  - injection H as <-. apply Permutation_refl.
  - destruct (py_lt (key x) (key y)) as [[|]|]; try discriminate.
    + destruct (insert_desc key x l) as [r'|]; try discriminate.
      injection H as <-.
      eapply perm_trans; [apply perm_swap|].
      apply perm_skip, IH; reflexivity.
    + injection H as <-. apply Permutation_refl.
Qed.

Lemma sort_reverse_perm (l r : list A) :
  sort_reverse key l = Return r -> Permutation l r.
Proof.
  revert r. induction l as [|x l IH]; simpl; intros r H.
  - injection H as <-. constructor.
  - destruct (sort_reverse key l) as [s|]; try discriminate.
    eapply perm_trans; [apply perm_skip, IH; reflexivity|].
    now apply insert_desc_perm.
Qed.

Lemma insert_desc_head (x : A) (l r : list A) (y : A) :
  insert_desc key x (y :: l) = Return r ->
  HdRel (not_below key) y l ->
  py_lt (key x) (key y) = Return true ->
  HdRel (not_below key) y (tl r) /\ hd x r = y.
Proof.
  simpl. intros H Hy Hlt. rewrite Hlt in H.
  destruct l as [|z l]; simpl in H.
  - injection H as <-. split; [|reflexivity].
    constructor. now apply py_lt_asym.
  - destruct (py_lt (key x) (key z)) as [[|]|]; try discriminate.
    + destruct (insert_desc key x l); try discriminate.
      injection H as <-. split; [|reflexivity].
      constructor. now inversion Hy.
    + injection H as <-. split; [|reflexivity].
      constructor. now apply py_lt_asym.
Qed.

Lemma insert_desc_sorted (x : A) (l r : list A) :
  Sorted (not_below key) l -> insert_desc key x l = Return r -> Sorted (not_below key) r.
Proof.
  revert r. induction l as [|y l IH]; intros r Hs H.
  - simpl in H. injection H as <-. repeat constructor.
  - inversion Hs as [|? ? Hs' Hy]; subst.
    destruct (py_lt (key x) (key y)) as [[|]|] eqn:Hlt.
    + destruct (insert_desc_head _ _ _ _ H Hy Hlt) as [Hhd Hy'].
      simpl in H. rewrite Hlt in H.
      destruct (insert_desc key x l) as [r'|] eqn:Hr; try discriminate.
      injection H as <-. simpl in Hhd.
      constructor; [now apply IH | exact Hhd].
    + simpl in H. rewrite Hlt in H. injection H as <-.
      constructor; [exact Hs | constructor; exact Hlt].
    + simpl in H. rewrite Hlt in H. discriminate.
Qed.

Lemma sort_reverse_sorted (l r : list A) :
  sort_reverse key l = Return r -> Sorted (not_below key) r.
Proof.
  revert r. induction l as [|x l IH]; simpl; intros r H.
  - injection H as <-. constructor.
  - destruct (sort_reverse key l) as [s|]; try discriminate.
    eapply insert_desc_sorted; [apply IH; reflexivity | exact H].
Qed.

(** The sort goes through when every key is a string. *)
Lemma insert_desc_returns (x : A) (l : list A) :
  string_keyed key x -> Forall (string_keyed key) l -> exists r, insert_desc key x l = Return r.
Proof.
  intros [s Hs] Hl. induction Hl as [|y l [u Hu] Hl IH]; simpl.
  - eauto.
  - rewrite Hs, Hu. simpl. destruct (String.ltb s u).
    + destruct IH as [r ->]. eauto.
    + eauto.
Qed.

Lemma sort_reverse_returns (l : list A) :
  Forall (string_keyed key) l -> exists r, sort_reverse key l = Return r.
Proof.
  induction 1 as [|x l Hx Hl [s Hs]]; simpl.
  - eauto.
  - rewrite Hs. apply insert_desc_returns; [exact Hx|].
    eapply Permutation_Forall; [apply sort_reverse_perm; exact Hs | exact Hl].
Qed.

(** Stability, in the form needed: a relation that holds from every
    element to every later one, and from the larger to the smaller of
    two keys wherever [insert_desc] moves an element past another, still
    holds so after the sort. *)
Variable R : A -> A -> Prop.
Hypothesis R_past : forall x y, py_lt (key x) (key y) = Return true -> R y x.

Lemma insert_desc_pairs (x : A) (l r : list A) :
  Forall (R x) l -> ForallOrdPairs R l ->
  insert_desc key x l = Return r -> ForallOrdPairs R r.
Proof.
  revert r. induction l as [|y l IH]; simpl; intros r Hx Hl H.
  - injection H as <-. repeat constructor.
  - destruct (py_lt (key x) (key y)) as [[|]|] eqn:Hlt; try discriminate.
    + destruct (insert_desc key x l) as [r'|] eqn:Hr; try discriminate.
      injection H as <-.
      inversion Hx; subst. inversion Hl; subst.
      constructor; [|now apply IH].
      eapply Permutation_Forall; [apply insert_desc_perm; exact Hr|].
      constructor; [now apply R_past | assumption].
    + injection H as <-. now constructor.
Qed.

Lemma sort_reverse_pairs (l r : list A) :
  ForallOrdPairs R l -> sort_reverse key l = Return r -> ForallOrdPairs R r.
Proof.
  revert r. induction l as [|x l IH]; simpl; intros r Hl H.
  - injection H as <-. constructor.
  - destruct (sort_reverse key l) as [s|] eqn:Hs; try discriminate.
    inversion Hl; subst.
    eapply insert_desc_pairs; [| apply IH; [assumption | reflexivity] | exact H].
    eapply Permutation_Forall; [apply sort_reverse_perm; exact Hs | assumption].
Qed.
End SortFacts.

Lemma Sorted_adjacent {A} (R : A -> A -> Prop) (l l1 l2 : list A) (a b : A) :
  Sorted R l -> l = l1 ++ a :: b :: l2 -> R a b.
Proof.
  revert l. induction l1 as [|c l1 IH]; simpl; intros l Hs ->.
  - inversion Hs as [|? ? _ Hhd]; subst. now inversion Hhd.
  - inversion Hs; subst. eapply IH; [eassumption | reflexivity].
Qed.

Lemma ForallOrdPairs_split {A} (R : A -> A -> Prop) (l l1 l2 l3 : list A) (a b : A) :
  ForallOrdPairs R l -> l = l1 ++ a :: l2 ++ b :: l3 -> R a b.
Proof.
  revert l. induction l1 as [|c l1 IH]; simpl; intros l Hp ->.
  - inversion Hp as [|? ? Ha _]; subst.
    apply Forall_app in Ha. destruct Ha as [_ Ha]. now inversion Ha.
  - inversion Hp; subst. eapply IH; [eassumption | reflexivity].
Qed.

(** ** The feed *)

(** A feed request answered with status 200 went through every step of
    the handler: both reads, both loops and the sort. *)
Lemma get_feed_200 store_select py_repr (t t' : trace) (resp : response) :
  serve (get_feed store_select py_repr) t = (resp, t') ->
  status resp = 200%Z ->
  exists ts ics fts fis feed,
    store_select "transcripts" = Return ts /\
    store_select "icebreakers" = Return ics /\
    for_each transcript_item ts = Return fts /\
    for_each (icebreaker_item py_repr) ics = Return fis /\
    sort_reverse created_at_key (fts ++ fis) = Return feed /\
    body resp = feed_body feed.
Proof.
  unfold serve, get_feed, try_except, bind, table_select, call, lift, raise, ret.
  intros H Hst.
  destruct (store_select "transcripts") as [ts|] eqn:Hts;
    [|injection H as <- _; discriminate].
  destruct (store_select "icebreakers") as [ics|] eqn:Hics;
    [|injection H as <- _; discriminate].
  destruct (for_each transcript_item ts) as [fts|] eqn:Hfts;
    [|injection H as <- _; discriminate].
  destruct (for_each (icebreaker_item py_repr) ics) as [fis|] eqn:Hfis;
    [|injection H as <- _; discriminate].
  destruct (sort_reverse created_at_key (fts ++ fis)) as [feed|] eqn:Hsort;
    [|injection H as <- _; discriminate].
  injection H as <- _.
  exists ts, ics, fts, fis, feed. repeat split; assumption || reflexivity.
Qed.

Lemma for_each_Forall {A B} (f : A -> result B) (P : B -> Prop) :
  (forall x y, f x = Return y -> P y) ->
  forall l r, for_each f l = Return r -> Forall P r.
Proof.
  intros Hf. induction l as [|x l IH]; simpl; intros r H.
  - injection H as <-. constructor.
  - destruct (f x) as [y|] eqn:Hy; try discriminate.
    destruct (for_each f l) as [ys|]; try discriminate.
    injection H as <-. constructor; [eapply Hf; eassumption | now apply IH].
Qed.

Lemma transcript_item_type (item fi : dict) :
  transcript_item item = Return fi -> getitem fi "type" = Return (JStr "transcript").
Proof.
  unfold transcript_item. destruct (getitem item "id"); try discriminate.
  intros H. injection H as <-. reflexivity.
Qed.

Lemma icebreaker_item_type py_repr (item fi : dict) :
  icebreaker_item py_repr item = Return fi -> getitem fi "type" = Return (JStr "icebreaker").
Proof.
  unfold icebreaker_item. destruct (getitem item "id"); try discriminate.
  intros H. injection H as <-. reflexivity.
Qed.

Lemma appended_in_order (fts fis : list dict) :
  Forall (fun d => getitem d "type" = Return (JStr "transcript")) fts ->
  Forall (fun d => getitem d "type" = Return (JStr "icebreaker")) fis ->
  ForallOrdPairs newer_if_ahead (fts ++ fis).
Proof.
  intros Ht Hi. induction Ht as [|x fts Hx Ht IH]; simpl.
  - induction Hi as [|y fis Hy Hi IH]; constructor; [|exact IH].
    apply Forall_forall. intros z Hz.
    rewrite Forall_forall in Hi. specialize (Hi z Hz).
    intros _ Hzt. congruence.
  - constructor; [|exact IH].
    apply Forall_forall. intros z _ Hxi. congruence.
Qed.

Lemma for_each_returns {A B} (f : A -> result B) (P : A -> Prop) (Q : B -> Prop) :
  (forall x, P x -> exists y, f x = Return y /\ Q y) ->
  forall l, Forall P l -> exists r, for_each f l = Return r /\ Forall Q r.
Proof.
  intros Hf l Hl. induction Hl as [|x l Hx Hl (r & Hr & HQ)]; simpl.
  - eauto.
  - destruct (Hf x Hx) as (y & -> & Hy). rewrite Hr. eauto.
Qed.

Lemma transcript_item_returns (item : dict) :
  stored_row item ->
  exists fi, transcript_item item = Return fi /\ string_keyed created_at_key fi.
Proof.
  intros [[id Hid] Hs]. unfold transcript_item. rewrite Hid.
  eexists. split; [reflexivity | exact Hs].
Qed.

Lemma icebreaker_item_returns py_repr (item : dict) :
  stored_row item ->
  exists fi, icebreaker_item py_repr item = Return fi /\ string_keyed created_at_key fi.
Proof.
  intros [[id Hid] Hs]. unfold icebreaker_item. rewrite Hid.
  eexists. split; [reflexivity | exact Hs].
Qed.

Lemma get_feed_answers store_select py_repr (t : trace) (ts ics : list dict) :
  store_select "transcripts" = Return ts ->
  store_select "icebreakers" = Return ics ->
  Forall stored_row ts -> Forall stored_row ics ->
  exists feed,
    serve (get_feed store_select py_repr) t =
      ({| status := 200; body := feed_body feed |},
       (t ++ [EvSelect "transcripts" "created_at" true 20])
         ++ [EvSelect "icebreakers" "created_at" true 20]).
Proof.
  intros Hts Hics Wts Wics.
  destruct (for_each_returns _ _ _ transcript_item_returns _ Wts) as (fts & Hfts & Kts).
  destruct (for_each_returns _ _ _ (icebreaker_item_returns py_repr) _ Wics)
    as (fis & Hfis & Kis).
  destruct (sort_reverse_returns created_at_key (fts ++ fis)) as [feed Hsort].
  { apply Forall_app. now split. }
  exists feed.
  unfold serve, get_feed, try_except, bind, table_select, call, lift, ret.
  now rewrite Hts, Hics, Hfts, Hfis, Hsort.
Qed.

(** C1: every feed that [get_feed] returns is the concatenation of the
    mapped transcript items and the mapped icebreaker items, rearranged so
    that [created_at] never increases: for each adjacent pair [(a, b)],
    [a.created_at >= b.created_at], which for strings is the
    lexicographic comparison.  And a feed is returned whenever both reads
    give rows with an id and a string timestamp. *)
Theorem get_feed_sorted store_select py_repr (t : trace) :
  (forall ts ics,
      store_select "transcripts" = Return ts ->
      store_select "icebreakers" = Return ics ->
      Forall stored_row ts -> Forall stored_row ics ->
      exists feed t',
        serve (get_feed store_select py_repr) t =
          ({| status := 200; body := feed_body feed |}, t')) /\
  (forall resp t',
      serve (get_feed store_select py_repr) t = (resp, t') ->
      status resp = 200%Z ->
      exists ts ics fts fis feed,
        store_select "transcripts" = Return ts /\
        store_select "icebreakers" = Return ics /\
        for_each transcript_item ts = Return fts /\
        for_each (icebreaker_item py_repr) ics = Return fis /\
        Permutation (fts ++ fis) feed /\
        body resp = feed_body feed /\
        forall l1 a b l2, feed = l1 ++ a :: b :: l2 ->
          py_ge (created_at_key a) (created_at_key b) = Return true /\
          forall sa sb, created_at_key a = JStr sa -> created_at_key b = JStr sb ->
            String.leb sb sa = true).
Proof.
  split.
  { intros ts ics Hts Hics Wts Wics.
    destruct (get_feed_answers _ py_repr t _ _ Hts Hics Wts Wics) as [feed Hfeed].
    eauto. }
  intros resp t' H Hst.
  destruct (get_feed_200 _ _ _ _ _ H Hst)
    as (ts & ics & fts & fis & feed & Hts & Hics & Hfts & Hfis & Hsort & Hbody).
  exists ts, ics, fts, fis, feed.
  repeat (split; [assumption || (eapply sort_reverse_perm; eassumption)|]).
  intros l1 a b l2 Hfeed.
  assert (Hge : py_ge (created_at_key a) (created_at_key b) = Return true).
  { apply py_lt_ge.
    exact (Sorted_adjacent _ _ _ _ _ _ (sort_reverse_sorted _ _ _ Hsort) Hfeed). }
  split; [exact Hge|].
  intros sa sb Ha Hb. rewrite Ha, Hb in Hge. simpl in Hge. congruence.
Qed.

Lemma get_feed_sorted_witness :
  (exists feed t',
     serve (get_feed one_each_select (fun _ => "")) [] =
       ({| status := 200; body := feed_body feed |}, t')) /\
  exists ts ics fts fis feed,
    one_each_select "transcripts" = Return ts /\
    one_each_select "icebreakers" = Return ics /\
    for_each transcript_item ts = Return fts /\
    for_each (icebreaker_item (fun _ => "")) ics = Return fis /\
    Permutation (fts ++ fis) feed /\
    body (fst (serve (get_feed one_each_select (fun _ => "")) [])) = feed_body feed /\
    forall l1 a b l2, feed = l1 ++ a :: b :: l2 ->
      py_ge (created_at_key a) (created_at_key b) = Return true /\
      forall sa sb, created_at_key a = JStr sa -> created_at_key b = JStr sb ->
        String.leb sb sa = true.
Proof.
  split.
  - eapply (proj1 (get_feed_sorted one_each_select (fun _ => "") [])); try reflexivity.
    + repeat constructor; [eexists | eexists]; reflexivity.
    + repeat constructor; [eexists | eexists]; reflexivity.
  - apply (proj2 (get_feed_sorted one_each_select (fun _ => "") [])
             _ (snd (serve (get_feed one_each_select (fun _ => "")) []))).
    + reflexivity.
    + reflexivity.
Defined.

Lemma nth_error_two {A} (l : list A) (m n : nat) (a b : A) :
  nth_error l m = Some a -> nth_error l n = Some b -> m < n ->
  exists l1 l2 l3, l = l1 ++ a :: l2 ++ b :: l3.
Proof.
  intros Ha Hb Hmn.
  apply nth_error_split in Ha. destruct Ha as (l1 & r & -> & Hl1).
  rewrite nth_error_app2 in Hb by lia.
  destruct (n - List.length l1) as [|k] eqn:Hk; [lia|]. simpl in Hb.
  apply nth_error_split in Hb. destruct Hb as (l2 & l3 & -> & _).
  now exists l1, l2, l3.
Qed.

(** C10: every feed that [get_feed] returns holds all the mapped
    transcript items and all the mapped icebreaker items, and whenever a
    transcript item and an icebreaker item have equal [created_at], the
    transcript item appears in the feed before the icebreaker item.  No
    icebreaker item stands before a transcript item of equal
    [created_at]: one that stands before a transcript item has a strictly
    greater [created_at]. *)
Theorem get_feed_ties_transcript_first store_select py_repr (t t' : trace) (resp : response) :
  serve (get_feed store_select py_repr) t = (resp, t') ->
  status resp = 200%Z ->
  exists ts ics fts fis feed,
    store_select "transcripts" = Return ts /\
    store_select "icebreakers" = Return ics /\
    for_each transcript_item ts = Return fts /\
    for_each (icebreaker_item py_repr) ics = Return fis /\
    Permutation (fts ++ fis) feed /\
    body resp = feed_body feed /\
    (forall tr i,
        In tr fts -> In i fis ->
        created_at_key tr = created_at_key i ->
        exists n m, n < m /\ nth_error feed n = Some tr /\ nth_error feed m = Some i) /\
    forall m n i tr,
      nth_error feed m = Some i ->
      nth_error feed n = Some tr ->
      getitem i "type" = Return (JStr "icebreaker") ->
      getitem tr "type" = Return (JStr "transcript") ->
      (created_at_key tr = created_at_key i -> n < m) /\
      (m < n -> py_lt (created_at_key tr) (created_at_key i) = Return true).
Proof.
  intros H Hst.
  destruct (get_feed_200 _ _ _ _ _ H Hst)
    as (ts & ics & fts & fis & feed & Hts & Hics & Hfts & Hfis & Hsort & Hbody).
  pose proof (sort_reverse_perm _ _ _ Hsort) as Hperm.
  assert (Htypes_t : Forall (fun d => getitem d "type" = Return (JStr "transcript")) fts).
  { eapply for_each_Forall; [|exact Hfts]. exact transcript_item_type. }
  assert (Htypes_i : Forall (fun d => getitem d "type" = Return (JStr "icebreaker")) fis).
  { eapply for_each_Forall; [|exact Hfis]. exact (icebreaker_item_type py_repr). }
  assert (Hpairs : forall m n i tr,
             nth_error feed m = Some i ->
             nth_error feed n = Some tr ->
             getitem i "type" = Return (JStr "icebreaker") ->
             getitem tr "type" = Return (JStr "transcript") ->
             (created_at_key tr = created_at_key i -> n < m) /\
             (m < n -> py_lt (created_at_key tr) (created_at_key i) = Return true)).
  { intros m n i tr Hm Hn Hi Htr.
    assert (Hlt : m < n -> py_lt (created_at_key tr) (created_at_key i) = Return true).
    { intros Hmn.
      destruct (nth_error_two _ _ _ _ _ Hm Hn Hmn) as (l1 & l2 & l3 & Hfeed).
      refine (ForallOrdPairs_split newer_if_ahead _ _ _ _ _ _ _ Hfeed Hi Htr).
      eapply sort_reverse_pairs; [| | exact Hsort].
      - intros x y Hxy _ _. exact Hxy.
      - now apply appended_in_order. }
    split; [|exact Hlt].
    intros Heq.
    destruct (Nat.lt_trichotomy m n) as [Hmn | [-> | Hnm]]; [| | exact Hnm].
    - specialize (Hlt Hmn). rewrite Heq in Hlt. destruct (py_lt_irrefl _ Hlt).
    - congruence. }
  exists ts, ics, fts, fis, feed.
  repeat (split; [assumption|]).
  split; [|exact Hpairs].
  intros tr i Htr Hi Heq.
  assert (Htr' : In tr feed).
  { apply (Permutation_in _ Hperm), in_or_app. now left. }
  assert (Hi' : In i feed).
  { apply (Permutation_in _ Hperm), in_or_app. now right. }
  apply In_nth_error in Htr', Hi'.
  destruct Htr' as [n Hn]. destruct Hi' as [m Hm].
  exists n, m. repeat split; try assumption.
  rewrite Forall_forall in Htypes_t, Htypes_i.
  exact (proj1 (Hpairs m n i tr Hm Hn (Htypes_i i Hi) (Htypes_t tr Htr)) Heq).
Qed.

Lemma get_feed_ties_transcript_first_witness :
  exists ts ics fts fis feed,
    tie_select "transcripts" = Return ts /\
    tie_select "icebreakers" = Return ics /\
    for_each transcript_item ts = Return fts /\
    for_each (icebreaker_item (fun _ => "")) ics = Return fis /\
    Permutation (fts ++ fis) feed /\
    body (fst (serve (get_feed tie_select (fun _ => "")) [])) = feed_body feed /\
    (forall tr i,
        In tr fts -> In i fis ->
        created_at_key tr = created_at_key i ->
        exists n m, n < m /\ nth_error feed n = Some tr /\ nth_error feed m = Some i) /\
    forall m n i tr,
      nth_error feed m = Some i ->
      nth_error feed n = Some tr ->
      getitem i "type" = Return (JStr "icebreaker") ->
      getitem tr "type" = Return (JStr "transcript") ->
      (created_at_key tr = created_at_key i -> n < m) /\
      (m < n -> py_lt (created_at_key tr) (created_at_key i) = Return true).
Proof.
  apply (get_feed_ties_transcript_first tie_select (fun _ => "") []
           (snd (serve (get_feed tie_select (fun _ => "")) []))).
  - reflexivity.
  - reflexivity.
Defined.

(** ** The model gateway *)

Lemma call_ai_unconfigured key groq (prompt : string) (t : trace) :
  truthy_env key = false ->
  call_ai key groq prompt t = (Return config_missing_analysis, t).
Proof.
  intros Hk. unfold call_ai. rewrite Hk. reflexivity.
Qed.

Lemma call_ai_configured key groq (prompt : string) (t : trace) :
  truthy_env key = true ->
  call_ai key groq prompt t =
    (Return match groq prompt with
            | Return text => success_analysis text
            | Raise e => error_analysis e
            end,
     t ++ [chat_event prompt]).
Proof.
  intros Hk. unfold call_ai, groq_client. rewrite Hk. simpl.
  unfold try_except, bind, chat_completions_create, call, ret.
  destruct (groq prompt); reflexivity.
Qed.

Lemma call_ai_returns key groq (prompt : string) (t : trace) :
  exists a t', call_ai key groq prompt t = (Return a, t').
Proof.
  destruct (truthy_env key) eqn:Hk.
  - rewrite call_ai_configured by exact Hk. eauto.
  - rewrite call_ai_unconfigured by exact Hk. eauto.
Qed.

(** C4: without a usable [GROQ_API_KEY], [call_ai] answers at once with
    the configuration error, whose insights hold one entry, and the trace
    of external calls is left as it was: the model service is not
    contacted. *)
Theorem call_ai_without_key key groq (prompt : string) (t : trace) :
  truthy_env key = false ->
  call_ai key groq prompt t =
    (Return (JObj [("summary", JStr "Error: GROQ_API_KEY not configured. Please set your Groq API key in the .env file.");
                   ("insights", JArr [JStr "AI configuration needed"]);
                   ("status", JStr "error")]),
     t).
Proof.
  exact (call_ai_unconfigured key groq prompt t).
Qed.

Lemma call_ai_without_key_witness :
  call_ai None (fun _ => Return (JStr "Good job.")) "Review this." [EvSelect "transcripts" "created_at" true 20] =
    (Return (JObj [("summary", JStr "Error: GROQ_API_KEY not configured. Please set your Groq API key in the .env file.");
                   ("insights", JArr [JStr "AI configuration needed"]);
                   ("status", JStr "error")]),
     [EvSelect "transcripts" "created_at" true 20]).
Proof.
  apply (call_ai_without_key None (fun _ => Return (JStr "Good job."))). reflexivity.
Defined.

(** C6: when the model answers, [call_ai] gives status "success", the
    model's text itself as the summary, and no insights. *)
Theorem call_ai_success key groq (prompt : string) (text : json) (t : trace) :
  truthy_env key = true ->
  groq prompt = Return text ->
  call_ai key groq prompt t =
    (Return (JObj [("summary", text); ("insights", JArr []); ("status", JStr "success")]),
     t ++ [chat_event prompt]).
Proof.
  intros Hk Hg. rewrite call_ai_configured by exact Hk. rewrite Hg. reflexivity.
Qed.

Lemma call_ai_success_witness :
  call_ai (Some "gsk") (fun _ => Return (JStr "Good job.")) "Review this." [] =
    (Return (JObj [("summary", JStr "Good job."); ("insights", JArr []);
                   ("status", JStr "success")]),
     [chat_event "Review this."]).
Proof.
  apply (call_ai_success (Some "gsk") (fun _ => Return (JStr "Good job.")) "Review this."
           (JStr "Good job.") []); reflexivity.
Defined.

(** C7: [call_ai] always returns an analysis with the three fields, its
    status is "success" or "error", and when it is "error" the insights
    are empty or a single explanatory entry and the summary is one of the
    two error messages: the configuration message, or the message of the
    exception the model call raised (so no model output is in it). *)
Theorem call_ai_error_shape key groq (prompt : string) (t : trace) :
  exists summary insights status t',
    call_ai key groq prompt t =
      (Return (JObj [("summary", summary); ("insights", JArr insights);
                     ("status", JStr status)]), t') /\
    (status = "success" \/ status = "error") /\
    (status = "error" ->
       (insights = [] \/ exists reason, insights = [JStr reason]) /\
       ((truthy_env key = false /\
         summary = JStr "Error: GROQ_API_KEY not configured. Please set your Groq API key in the .env file.") \/
        (exists e, truthy_env key = true /\ groq prompt = Raise e /\
                   summary = JStr ("Error calling Groq API: " ++ str_exn e)))).
Proof.
  destruct (truthy_env key) eqn:Hk.
  - rewrite call_ai_configured by exact Hk.
    destruct (groq prompt) as [text|e] eqn:Hg.
    + exists text, [], "success", (t ++ [chat_event prompt]).
      split; [reflexivity|]. split; [now left|]. discriminate.
    + exists (JStr ("Error calling Groq API: " ++ str_exn e)), [], "error",
        (t ++ [chat_event prompt]).
      split; [reflexivity|]. split; [now right|]. intros _.
      split; [now left|]. right. exists e. auto.
  - rewrite call_ai_unconfigured by exact Hk.
    exists (JStr "Error: GROQ_API_KEY not configured. Please set your Groq API key in the .env file."),
      [JStr "AI configuration needed"], "error", t.
    split; [reflexivity|]. split; [now right|]. intros _.
    split; [right; eauto | left; auto].
Qed.

Lemma call_ai_error_shape_witness :
  exists summary insights status t',
    call_ai (Some "gsk") model_down "Review this." [] =
      (Return (JObj [("summary", summary); ("insights", JArr insights);
                     ("status", JStr status)]), t') /\
    (status = "success" \/ status = "error") /\
    (status = "error" ->
       (insights = [] \/ exists reason, insights = [JStr reason]) /\
       ((truthy_env (Some "gsk") = false /\
         summary = JStr "Error: GROQ_API_KEY not configured. Please set your Groq API key in the .env file.") \/
        (exists e, truthy_env (Some "gsk") = true /\ model_down "Review this." = Raise e /\
                   summary = JStr ("Error calling Groq API: " ++ str_exn e)))).
Proof.
  exact (call_ai_error_shape (Some "gsk") model_down "Review this." []).
Defined.

(** ** The two submitting handlers *)

Lemma analyze_transcript_run key groq ins data (a : json) (t t1 : trace) :
  call_ai key groq (transcript_prompt data) t = (Return a, t1) ->
  serve (analyze_transcript key groq ins data) t =
    after_analysis ins "transcripts" (transcript_row data a) a t1.
Proof.
  intros Hai.
  unfold serve, analyze_transcript, try_except, bind, after_analysis.
  rewrite Hai. unfold table_insert, call, lift, raise, ret, transcript_row.
  destruct (ins "transcripts" _) as [rows|e]; [|reflexivity].
  destruct (first_id rows); reflexivity.
Qed.

Lemma generate_icebreaker_run key groq ins data (a : json) (t t1 : trace) :
  call_ai key groq (icebreaker_prompt data) t = (Return a, t1) ->
  serve (generate_icebreaker key groq ins data) t =
    after_analysis ins "icebreakers" (icebreaker_row data a) a t1.
Proof.
  intros Hai.
  unfold serve, generate_icebreaker, try_except, bind, after_analysis.
  rewrite Hai. unfold table_insert, call, lift, raise, ret, icebreaker_row.
  destruct (ins "icebreakers" _) as [rows|e]; [|reflexivity].
  destruct (first_id rows); reflexivity.
Qed.

(** C3: when the model call raises, [call_ai] does not: it returns the
    analysis with status "error" whose summary ends in the text of the
    exception.  The submitting handlers then insert the record carrying
    that analysis, and once the store has taken it they answer with status
    200 and the same analysis. *)
Theorem model_failure_is_embedded key groq ins (e : exn) :
  truthy_env key = true ->
  (forall prompt t,
      groq prompt = Raise e ->
      call_ai key groq prompt t =
        (Return (JObj [("summary", JStr ("Error calling Groq API: " ++ str_exn e));
                       ("insights", JArr []);
                       ("status", JStr "error")]),
         t ++ [chat_event prompt])) /\
  (forall data rows id t,
      groq (transcript_prompt data) = Raise e ->
      ins "transcripts" (transcript_row data (error_analysis e)) = Return rows ->
      first_id rows = Return id ->
      serve (analyze_transcript key groq ins data) t =
        ({| status := 200; body := JObj [("result", error_analysis e); ("id", id)] |},
         t ++ [chat_event (transcript_prompt data);
               EvInsert "transcripts" (transcript_row data (error_analysis e))])) /\
  (forall data rows id t,
      groq (icebreaker_prompt data) = Raise e ->
      ins "icebreakers" (icebreaker_row data (error_analysis e)) = Return rows ->
      first_id rows = Return id ->
      serve (generate_icebreaker key groq ins data) t =
        ({| status := 200; body := JObj [("result", error_analysis e); ("id", id)] |},
         t ++ [chat_event (icebreaker_prompt data);
               EvInsert "icebreakers" (icebreaker_row data (error_analysis e))])).
Proof.
  intros Hk.
  assert (Hai : forall prompt t, groq prompt = Raise e ->
            call_ai key groq prompt t = (Return (error_analysis e), t ++ [chat_event prompt])).
  { intros prompt t Hg. rewrite call_ai_configured by exact Hk. now rewrite Hg. }
  split; [exact Hai|]. split.
  - intros data rows id t Hg Hins Hid.
    rewrite (analyze_transcript_run _ _ _ _ _ _ _ (Hai _ t Hg)).
    unfold after_analysis. rewrite Hins, Hid, <- app_assoc. reflexivity.
  - intros data rows id t Hg Hins Hid.
    rewrite (generate_icebreaker_run _ _ _ _ _ _ _ (Hai _ t Hg)).
    unfold after_analysis. rewrite Hins, Hid, <- app_assoc. reflexivity.
Qed.

Lemma model_failure_is_embedded_witness :
  call_ai (Some "gsk") model_down "Review this." [] =
    (Return (JObj [("summary", JStr "Error calling Groq API: Connection error.");
                   ("insights", JArr []);
                   ("status", JStr "error")]),
     [chat_event "Review this."]) /\
  serve (analyze_transcript (Some "gsk") model_down store_assigns_7 acme) [] =
    ({| status := 200;
        body := JObj [("result", error_analysis (ClientError "Connection error."));
                      ("id", JNum 7)] |},
     [chat_event (transcript_prompt acme);
      EvInsert "transcripts"
        (transcript_row acme (error_analysis (ClientError "Connection error.")))]) /\
  serve (generate_icebreaker (Some "gsk") model_down store_assigns_7 jane) [] =
    ({| status := 200;
        body := JObj [("result", error_analysis (ClientError "Connection error."));
                      ("id", JNum 7)] |},
     [chat_event (icebreaker_prompt jane);
      EvInsert "icebreakers"
        (icebreaker_row jane (error_analysis (ClientError "Connection error.")))]).
Proof.
  destruct (model_failure_is_embedded (Some "gsk") model_down store_assigns_7
              (ClientError "Connection error.") eq_refl) as (Hai & Htr & Hib).
  split; [|split].
  - apply (Hai "Review this." []). reflexivity.
  - eapply (Htr acme _ (JNum 7) []); reflexivity.
  - eapply (Hib jane _ (JNum 7) []); reflexivity.
Defined.

(** C5: a failing store operation is not recovered.  When the insert of
    either submitting handler raises, and when either of the two reads of
    [get_feed] raises, the answer is status 500 with the text of the
    exception as its detail; the failed feed answer carries no items. *)
Theorem store_failure_is_server_error key groq ins sel py_repr (e : exn) :
  (forall data a t t1,
      call_ai key groq (transcript_prompt data) t = (Return a, t1) ->
      ins "transcripts" (transcript_row data a) = Raise e ->
      serve (analyze_transcript key groq ins data) t =
        ({| status := 500; body := JObj [("detail", JStr (str_exn e))] |},
         t1 ++ [EvInsert "transcripts" (transcript_row data a)])) /\
  (forall data a t t1,
      call_ai key groq (icebreaker_prompt data) t = (Return a, t1) ->
      ins "icebreakers" (icebreaker_row data a) = Raise e ->
      serve (generate_icebreaker key groq ins data) t =
        ({| status := 500; body := JObj [("detail", JStr (str_exn e))] |},
         t1 ++ [EvInsert "icebreakers" (icebreaker_row data a)])) /\
  (forall t,
      sel "transcripts" = Raise e ->
      serve (get_feed sel py_repr) t =
        ({| status := 500; body := JObj [("detail", JStr (str_exn e))] |},
         t ++ [EvSelect "transcripts" "created_at" true 20])) /\
  (forall t ts,
      sel "transcripts" = Return ts ->
      sel "icebreakers" = Raise e ->
      serve (get_feed sel py_repr) t =
        ({| status := 500; body := JObj [("detail", JStr (str_exn e))] |},
         (t ++ [EvSelect "transcripts" "created_at" true 20])
           ++ [EvSelect "icebreakers" "created_at" true 20])).
Proof.
  repeat split.
  - intros data a t t1 Hai Hins.
    rewrite (analyze_transcript_run _ _ _ _ _ _ _ Hai).
    unfold after_analysis. now rewrite Hins.
  - intros data a t t1 Hai Hins.
    rewrite (generate_icebreaker_run _ _ _ _ _ _ _ Hai).
    unfold after_analysis. now rewrite Hins.
  - intros t Hsel.
    unfold serve, get_feed, try_except, bind, table_select, call.
    now rewrite Hsel.
  - intros t ts Hts Hics.
    unfold serve, get_feed, try_except, bind, table_select, call.
    now rewrite Hts, Hics.
Qed.

Lemma store_failure_is_server_error_witness :
  serve (analyze_transcript (Some "gsk") good_job store_down acme) [] =
    ({| status := 500; body := JObj [("detail", JStr "connection refused")] |},
     [chat_event (transcript_prompt acme)]
       ++ [EvInsert "transcripts" (transcript_row acme (success_analysis (JStr "Good job.")))]) /\
  serve (generate_icebreaker (Some "gsk") good_job store_down jane) [] =
    ({| status := 500; body := JObj [("detail", JStr "connection refused")] |},
     [chat_event (icebreaker_prompt jane)]
       ++ [EvInsert "icebreakers" (icebreaker_row jane (success_analysis (JStr "Good job.")))]) /\
  serve (get_feed reads_down (fun _ => "")) [] =
    ({| status := 500; body := JObj [("detail", JStr "connection refused")] |},
     [EvSelect "transcripts" "created_at" true 20]) /\
  serve (get_feed second_read_down (fun _ => "")) [] =
    ({| status := 500; body := JObj [("detail", JStr "connection refused")] |},
     [EvSelect "transcripts" "created_at" true 20;
      EvSelect "icebreakers" "created_at" true 20]).
Proof.
  split; [|split; [|split]].
  - apply (proj1 (store_failure_is_server_error (Some "gsk") good_job store_down
                    reads_down (fun _ => "") (ClientError "connection refused"))
             acme (success_analysis (JStr "Good job.")) []); reflexivity.
  - apply (proj1 (proj2 (store_failure_is_server_error (Some "gsk") good_job store_down
                    reads_down (fun _ => "") (ClientError "connection refused")))
             jane (success_analysis (JStr "Good job.")) []); reflexivity.
  - apply (proj1 (proj2 (proj2 (store_failure_is_server_error (Some "gsk") good_job
                    store_down reads_down (fun _ => "") (ClientError "connection refused"))))
             []); reflexivity.
  - apply (proj2 (proj2 (proj2 (store_failure_is_server_error (Some "gsk") good_job
                    store_down second_read_down (fun _ => "")
                    (ClientError "connection refused"))))
             [] [[("id", JNum 1); ("created_at", JStr "2024-01-02")]]); reflexivity.
Defined.

(** C9: an insert that returns without raising but gives back no rows is
    not an error: the handler answers with status 200, the analysis, and
    [None] as the id. *)
Theorem empty_insert_gives_null_id key groq ins :
  (forall data a t t1,
      call_ai key groq (transcript_prompt data) t = (Return a, t1) ->
      ins "transcripts" (transcript_row data a) = Return [] ->
      serve (analyze_transcript key groq ins data) t =
        ({| status := 200; body := JObj [("result", a); ("id", JNull)] |},
         t1 ++ [EvInsert "transcripts" (transcript_row data a)])) /\
  (forall data a t t1,
      call_ai key groq (icebreaker_prompt data) t = (Return a, t1) ->
      ins "icebreakers" (icebreaker_row data a) = Return [] ->
      serve (generate_icebreaker key groq ins data) t =
        ({| status := 200; body := JObj [("result", a); ("id", JNull)] |},
         t1 ++ [EvInsert "icebreakers" (icebreaker_row data a)])).
Proof.
  split.
  - intros data a t t1 Hai Hins.
    rewrite (analyze_transcript_run _ _ _ _ _ _ _ Hai).
    unfold after_analysis. now rewrite Hins.
  - intros data a t t1 Hai Hins.
    rewrite (generate_icebreaker_run _ _ _ _ _ _ _ Hai).
    unfold after_analysis. now rewrite Hins.
Qed.

Lemma empty_insert_gives_null_id_witness :
  serve (analyze_transcript (Some "gsk") good_job store_returns_nothing acme) [] =
    ({| status := 200;
        body := JObj [("result", success_analysis (JStr "Good job.")); ("id", JNull)] |},
     [chat_event (transcript_prompt acme)]
       ++ [EvInsert "transcripts" (transcript_row acme (success_analysis (JStr "Good job.")))]) /\
  serve (generate_icebreaker None good_job store_returns_nothing jane) [] =
    ({| status := 200; body := JObj [("result", config_missing_analysis); ("id", JNull)] |},
     [] ++ [EvInsert "icebreakers" (icebreaker_row jane config_missing_analysis)]).
Proof.
  split.
  - apply (proj1 (empty_insert_gives_null_id (Some "gsk") good_job store_returns_nothing)
             acme (success_analysis (JStr "Good job.")) []); reflexivity.
  - apply (proj2 (empty_insert_gives_null_id None good_job store_returns_nothing)
             jane config_missing_analysis []); reflexivity.
Defined.

(** ** The fallbacks of the feed items *)

Lemma get_present (d : dict) (key : string) (default v : json) :
  getitem d key = Return v -> get d key default = v.
Proof.
  induction d as [|[k w] d IH]; simpl; [discriminate|].
  destruct (String.eqb k key); [congruence | exact IH].
Qed.

Lemma get_absent (d : dict) (key : string) (default : json) :
  contains d key = false -> get d key default = default.
Proof.
  induction d as [|[k w] d IH]; simpl; [reflexivity|].
  destruct (String.eqb k key); [discriminate | exact IH].
Qed.

(** What [item.get(key, default)] does in the two loops: the default
    stands in for a missing key only.  A row without [company_name] gets
    the title "Unknown Company" and a row with it gets the stored value;
    likewise for [username] and [role]. *)
Theorem feed_fallbacks_for_missing_keys py_repr :
  (forall item fi,
      transcript_item item = Return fi ->
      (contains item "company_name" = false ->
       getitem fi "title" = Return (JStr "Unknown Company")) /\
      (forall v, getitem item "company_name" = Return v ->
       getitem fi "title" = Return v)) /\
  (forall item fi,
      icebreaker_item py_repr item = Return fi ->
      (contains item "username" = false ->
       getitem fi "title" = Return (JStr "LinkedIn Icebreaker - Unknown User")) /\
      (forall s, getitem item "username" = Return (JStr s) ->
       getitem fi "title" = Return (JStr ("LinkedIn Icebreaker - " ++ s))) /\
      (contains item "role" = false ->
       getitem fi "description" = Return (JStr "Unknown Role • Sales Outreach Analysis")) /\
      (forall s, getitem item "role" = Return (JStr s) ->
       getitem fi "description" = Return (JStr (s ++ " • Sales Outreach Analysis")))).
Proof.
  split; intros item fi H.
  - unfold transcript_item in H. destruct (getitem item "id"); [|discriminate].
    injection H as <-. simpl. split.
    + intros Ha. now rewrite get_absent.
    + intros v Hv. now rewrite (get_present _ _ _ _ Hv).
  - unfold icebreaker_item in H. destruct (getitem item "id"); [|discriminate].
    injection H as <-. simpl. repeat split.
    + intros Ha. now rewrite get_absent.
    + intros s Hs. now rewrite (get_present _ _ _ _ Hs).
    + intros Ha. now rewrite get_absent.
    + intros s Hs. now rewrite (get_present _ _ _ _ Hs).
Qed.

Lemma feed_fallbacks_for_missing_keys_witness :
  (forall fi, transcript_item row_without_names = Return fi ->
     getitem fi "title" = Return (JStr "Unknown Company")) /\
  (forall fi, transcript_item row_with_empty_names = Return fi ->
     getitem fi "title" = Return (JStr "")) /\
  (forall fi, icebreaker_item (fun _ => "") row_without_names = Return fi ->
     getitem fi "title" = Return (JStr "LinkedIn Icebreaker - Unknown User") /\
     getitem fi "description" = Return (JStr "Unknown Role • Sales Outreach Analysis")) /\
  (forall fi, icebreaker_item (fun _ => "") row_with_empty_names = Return fi ->
     getitem fi "title" = Return (JStr "LinkedIn Icebreaker - ") /\
     getitem fi "description" = Return (JStr " • Sales Outreach Analysis")).
Proof.
  destruct (feed_fallbacks_for_missing_keys (fun _ => "")) as [Ht Hi].
  split; [|split; [|split]]; intros fi H.
  - apply (proj1 (Ht _ _ H)). reflexivity.
  - apply (proj2 (Ht _ _ H)). reflexivity.
  - destruct (Hi _ _ H) as (Hu & _ & Hr & _).
    split; [apply Hu | apply Hr]; reflexivity.
  - destruct (Hi _ _ H) as (_ & Hu & _ & Hr).
    split; [apply (Hu "") | apply (Hr "")]; reflexivity.
Defined.

(** On a row whose [company_name], [username] and [role] are the empty
    string the two loops put the empty string into the title and the
    description. *)
Lemma empty_names_are_not_replaced :
  getitem row_with_empty_names "company_name" = Return (JStr "") /\
  getitem row_with_empty_names "username" = Return (JStr "") /\
  getitem row_with_empty_names "role" = Return (JStr "") /\
  (exists fi, transcript_item row_with_empty_names = Return fi /\
              getitem fi "title" = Return (JStr "") /\
              getitem fi "title" <> Return (JStr "Unknown Company")) /\
  (exists fi, icebreaker_item (fun _ => "") row_with_empty_names = Return fi /\
              getitem fi "title" = Return (JStr "LinkedIn Icebreaker - ") /\
              getitem fi "title" <> Return (JStr "LinkedIn Icebreaker - Unknown User") /\
              getitem fi "description" = Return (JStr " • Sales Outreach Analysis") /\
              getitem fi "description" <> Return (JStr "Unknown Role • Sales Outreach Analysis")).
Proof.
  repeat split; try reflexivity.
  - eexists. repeat split; try reflexivity. discriminate.
  - eexists. repeat split; try reflexivity; discriminate.
Qed.

(** The rows the two submitting handlers insert always have the keys
    that the fallbacks of [get_feed] wait for, so for these rows the
    fallbacks cannot come into play. *)
Lemma handlers_always_write_the_names (a : json) :
  (forall data, contains (transcript_row data a) "company_name" = true) /\
  (forall data, contains (icebreaker_row data a) "username" = true
                /\ contains (icebreaker_row data a) "role" = true).
Proof.
  split; intros data; repeat split.
Qed.

(** C2: the code does not do this.  A transcript submitted without a
    company name is inserted by [analyze_transcript] with [company_name]
    equal to the empty string, and for the row the store then holds the
    feed item's title is the empty string, not "Unknown Company".  In the
    same way an icebreaker submitted with an empty [username] and [role]
    comes back with the title "LinkedIn Icebreaker - " and the
    description " • Sales Outreach Analysis", without "Unknown User" and
    "Unknown Role". *)
Theorem omitted_names_show_empty_in_feed :
  (snd (serve (analyze_transcript (Some "gsk") good_job store_assigns_7 no_company) []) =
     [chat_event (transcript_prompt no_company);
      EvInsert "transcripts" (transcript_row no_company (success_analysis (JStr "Good job.")))] /\
   getitem no_company_stored "company_name" = Return (JStr "") /\
   exists fi, transcript_item no_company_stored = Return fi /\
              getitem fi "title" = Return (JStr "") /\
              getitem fi "title" <> Return (JStr "Unknown Company")) /\
  (snd (serve (generate_icebreaker (Some "gsk") good_job store_assigns_7 no_names) []) =
     [chat_event (icebreaker_prompt no_names);
      EvInsert "icebreakers" (icebreaker_row no_names (success_analysis (JStr "Good job.")))] /\
   getitem no_names_stored "username" = Return (JStr "") /\
   getitem no_names_stored "role" = Return (JStr "") /\
   forall py_repr,
   exists fi, icebreaker_item py_repr no_names_stored = Return fi /\
              getitem fi "title" = Return (JStr "LinkedIn Icebreaker - ") /\
              getitem fi "title" <> Return (JStr "LinkedIn Icebreaker - Unknown User") /\
              getitem fi "description" = Return (JStr " • Sales Outreach Analysis") /\
              getitem fi "description" <> Return (JStr "Unknown Role • Sales Outreach Analysis")).
Proof.
  split.
  - split; [reflexivity|]. split; [reflexivity|].
    eexists. split; [reflexivity|]. split; [reflexivity | discriminate].
  - split; [reflexivity|]. split; [reflexivity|]. split; [reflexivity|].
    intros py_repr. eexists. split; [reflexivity|].
    repeat split; try reflexivity; discriminate.
Qed.

(** ** The prompts as templates *)

Lemma length_append (s1 s2 : string) :
  String.length (s1 ++ s2) = String.length s1 + String.length s2.
Proof.
  induction s1 as [|c s1 IH]; simpl; [reflexivity | now rewrite IH].
Qed.

Lemma render_length {F} (template : list (piece F)) (value : F -> string) :
  String.length (render template value) =
  fold_right (fun p n => String.length (piece_text value p) + n) 0 template.
Proof.
  induction template as [|p template IH]; simpl; [reflexivity|].
  now rewrite length_append, IH.
Qed.

(** Rendering a template never gets shorter when a field gets longer. *)
Lemma render_length_mono {F} (template : list (piece F)) (v w : F -> string) :
  (forall f, String.length (v f) <= String.length (w f)) ->
  String.length (render template v) <= String.length (render template w).
Proof.
  intros Hvw. rewrite !render_length.
  induction template as [|p template IH]; simpl; [lia|].
  destruct p as [s|f]; simpl; [lia|]. specialize (Hvw f). lia.
Qed.

(** C8 as worded fails for the icebreaker prompt: a request without a
    pitch deck does not get the empty string in the pitch deck slot, and
    for no template at all is the prompt the template with the fields put
    in unchanged (a one-letter deck url gives a shorter prompt than the
    empty one). *)
Lemma icebreaker_prompt_not_verbatim :
  icebreaker_prompt jane <> render icebreaker_template (icebreaker_value jane) /\
  ~ exists template : list (piece icebreaker_field),
      forall data, icebreaker_prompt data = render template (icebreaker_value data).
Proof.
  split.
  - intros H. apply (f_equal String.length) in H. vm_compute in H. discriminate.
  - intros [template H].
    assert (Hle : String.length (render template (icebreaker_value jane))
                  <= String.length (render template (icebreaker_value jane_with_deck))).
    { apply render_length_mono. intros []; simpl; lia. }
    rewrite <- !H in Hle. vm_compute in Hle.
    repeat apply le_S_n in Hle. inversion Hle.
Qed.

(** C8, as the code has it: both prompts are a fixed template in which
    every request field has a slot.  The transcript prompt puts each field
    into its slots unchanged, the empty defaults of the optional fields
    as the empty text, so its length is that of the fixed text plus the
    lengths of the fields.  The icebreaker prompt does the same for
    [username], [role] and [linkedin_bio], and for [deck_url] whenever it
    is not empty; an empty [deck_url] is shown as "No pitch deck
    provided". *)
Theorem prompts_embed_fields :
  (forall f, In (Slot f) transcript_template) /\
  (forall f, In (Slot f) icebreaker_template) /\
  (forall data,
      transcript_prompt data = render transcript_template (transcript_value data)) /\
  (forall data,
      String.length (transcript_prompt data) =
        251 + String.length data.(company_name) + String.length data.(attendees)
        + String.length data.(date) + String.length data.(transcript)) /\
  (forall tr,
      transcript_prompt (TranscriptRequest_init tr None None None) =
        render transcript_template
          (fun f => match f with Transcript => tr | _ => "" end)) /\
  (forall data,
      icebreaker_prompt data = render icebreaker_template (icebreaker_shown data)) /\
  (forall data,
      data.(deck_url) <> "" ->
      icebreaker_prompt data = render icebreaker_template (icebreaker_value data)) /\
  (forall u r b,
      icebreaker_prompt (IcebreakerRequest_init u r b None) =
        render icebreaker_template
          (fun f => match f with
                    | Username => u | Role => r | LinkedinBio => b
                    | DeckUrl => "No pitch deck provided"
                    end)).
Proof.
  assert (Ht : forall data,
             transcript_prompt data = render transcript_template (transcript_value data))
    by reflexivity.
  assert (Hi : forall data,
             icebreaker_prompt data = render icebreaker_template (icebreaker_shown data))
    by reflexivity.
  split; [intros []; simpl; tauto|].
  split; [intros []; simpl; tauto|].
  split; [exact Ht|].
  split; [intros data; rewrite Ht, render_length; simpl; lia|].
  split; [reflexivity|].
  split; [exact Hi|].
  split; [|reflexivity].
  intros [u r b d] Hd. simpl in Hd. rewrite Hi.
  destruct d; [congruence | reflexivity].
Qed.

Lemma prompts_embed_fields_witness :
  icebreaker_prompt jane_with_deck =
    render icebreaker_template (icebreaker_value jane_with_deck).
Proof.
  apply (proj1 (proj2 (proj2 (proj2 (proj2 (proj2 (proj2 prompts_embed_fields))))))).
  discriminate.
Defined.

(** * Further properties of the handlers *)

Lemma guarded_answer (m : M json) (t : trace) :
  ok_or_server_error
    (fst (serve (try_except m (fun e => raise (HTTPException 500 (str_exn e)))) t)).
Proof.
  unfold serve, try_except, raise, ok_or_server_error.
  destruct (m t) as [[v|e] t1]; simpl; [now left|].
  right. split; [reflexivity | eauto].
Qed.

(** X1: each of the three working endpoints answers with status 200, or
    with status 500 and a body that is a detail text; nothing else leaves
    a handler.  The health endpoint always answers 200 with its fixed
    body and calls nothing. *)
Theorem endpoints_answer_200_or_500 key groq ins sel py_repr (t : trace) :
  (forall data, ok_or_server_error (fst (serve (analyze_transcript key groq ins data) t))) /\
  (forall data, ok_or_server_error (fst (serve (generate_icebreaker key groq ins data) t))) /\
  ok_or_server_error (fst (serve (get_feed sel py_repr) t)) /\
  serve health t = ({| status := 200; body := JObj [("status", JStr "ok")] |}, t).
Proof.
  split; [|split; [|split]]; try reflexivity.
  - intros data. apply guarded_answer.
  - intros data. apply guarded_answer.
  - apply guarded_answer.
Qed.

Lemma call_ai_run key groq (prompt : string) (t : trace) :
  call_ai key groq prompt t =
    (Return (gateway_analysis key groq prompt), t ++ model_calls key prompt).
Proof.
  unfold gateway_analysis, model_calls. destruct (truthy_env key) eqn:Hk.
  - rewrite call_ai_configured by exact Hk. now destruct (groq prompt).
  - rewrite call_ai_unconfigured by exact Hk. now rewrite app_nil_r.
Qed.

(** X2: one run of [call_ai] calls [chat.completions.create] exactly
    once when a key is configured, whether that call returns or raises
    ([call_ai] does not call it a second time), and never when the key is
    unset or empty.  The call names the model llama-3.1-8b-instant, caps
    the answer at 1000 tokens and passes the prompt, unchanged, as its
    single user message.  What the client does inside one call, such as
    sending the HTTP request again, is not part of the statement. *)
Theorem call_ai_one_request key groq (prompt : string) (t : trace) :
  snd (call_ai key groq prompt t) =
    t ++ (if truthy_env key
          then [EvChatCreate "llama-3.1-8b-instant" 1000 "user" prompt]
          else []).
Proof.
  rewrite call_ai_run. reflexivity.
Qed.

(** X3: a submission is inserted exactly once whatever the model did: the
    calls of [analyze_transcript] are the model request (if a key is
    configured) and then one insert into "transcripts" of the request
    fields together with the analysis [call_ai] gave, error analyses
    included; [generate_icebreaker] does the same on "icebreakers".
    Neither handler reads from the store. *)
Theorem submission_inserts_once key groq ins (t : trace) :
  (forall data,
      snd (serve (analyze_transcript key groq ins data) t) =
        (t ++ model_calls key (transcript_prompt data))
          ++ [EvInsert "transcripts"
                (transcript_row data (gateway_analysis key groq (transcript_prompt data)))]) /\
  (forall data,
      snd (serve (generate_icebreaker key groq ins data) t) =
        (t ++ model_calls key (icebreaker_prompt data))
          ++ [EvInsert "icebreakers"
                (icebreaker_row data (gateway_analysis key groq (icebreaker_prompt data)))]).
Proof.
  split; intros data.
  - rewrite (analyze_transcript_run _ _ _ _ _ _ _ (call_ai_run _ _ _ _)).
    unfold after_analysis.
    destruct (ins "transcripts" _) as [rows|e]; [|reflexivity].
    destruct (first_id rows); reflexivity.
  - rewrite (generate_icebreaker_run _ _ _ _ _ _ _ (call_ai_run _ _ _ _)).
    unfold after_analysis.
    destruct (ins "icebreakers" _) as [rows|e]; [|reflexivity].
    destruct (first_id rows); reflexivity.
Qed.

(** X4: what a submission returns is what it stored.  When
    [analyze_transcript] answers 200, the insert returned, the [result]
    of the body is the very analysis that was inserted, and the [id] is
    the id of the first returned row, or null when no row came back; the
    same holds for [generate_icebreaker]. *)
Theorem submission_returns_what_it_stored key groq ins (t : trace) :
  (forall data resp t',
      serve (analyze_transcript key groq ins data) t = (resp, t') ->
      status resp = 200%Z ->
      let a := gateway_analysis key groq (transcript_prompt data) in
      exists rows id,
        ins "transcripts" (transcript_row data a) = Return rows /\
        body resp = JObj [("result", a); ("id", id)] /\
        ((rows = [] /\ id = JNull) \/
         exists row rest, rows = row :: rest /\ getitem row "id" = Return id)) /\
  (forall data resp t',
      serve (generate_icebreaker key groq ins data) t = (resp, t') ->
      status resp = 200%Z ->
      let a := gateway_analysis key groq (icebreaker_prompt data) in
      exists rows id,
        ins "icebreakers" (icebreaker_row data a) = Return rows /\
        body resp = JObj [("result", a); ("id", id)] /\
        ((rows = [] /\ id = JNull) \/
         exists row rest, rows = row :: rest /\ getitem row "id" = Return id)).
Proof.
  assert (Hafter : forall table row a t1 resp t',
             after_analysis ins table row a t1 = (resp, t') ->
             status resp = 200%Z ->
             exists rows id,
               ins table row = Return rows /\
               body resp = JObj [("result", a); ("id", id)] /\
               ((rows = [] /\ id = JNull) \/
                exists r rest, rows = r :: rest /\ getitem r "id" = Return id)).
  { intros table row a t1 resp t' H Hst. unfold after_analysis in H.
    destruct (ins table row) as [rows|e]; [|injection H as <- _; discriminate].
    destruct (first_id rows) as [id|e] eqn:Hid; [|injection H as <- _; discriminate].
    injection H as <- _. exists rows, id. repeat split.
    destruct rows as [|r rest]; simpl in Hid.
    - left. split; congruence.
    - right. eauto. }
  split; intros data resp t' H Hst a.
  - rewrite (analyze_transcript_run _ _ _ _ _ _ _ (call_ai_run _ _ _ _)) in H.
    exact (Hafter _ _ _ _ _ _ H Hst).
  - rewrite (generate_icebreaker_run _ _ _ _ _ _ _ (call_ai_run _ _ _ _)) in H.
    exact (Hafter _ _ _ _ _ _ H Hst).
Qed.

Lemma submission_returns_what_it_stored_witness :
  let a := gateway_analysis (Some "gsk") good_job (transcript_prompt acme) in
  exists rows id,
    store_two_rows "transcripts" (transcript_row acme a) = Return rows /\
    body (fst (serve (analyze_transcript (Some "gsk") good_job store_two_rows acme) [])) =
      JObj [("result", a); ("id", id)] /\
    ((rows = [] /\ id = JNull) \/
     exists row rest, rows = row :: rest /\ getitem row "id" = Return id).
Proof.
  apply (proj1 (submission_returns_what_it_stored (Some "gsk") good_job store_two_rows [])
           acme _ (snd (serve (analyze_transcript (Some "gsk") good_job store_two_rows acme) []))).
  - reflexivity.
  - reflexivity.
Defined.

Lemma getitem_absent (d : dict) (key : string) :
  contains d key = false -> getitem d key = Raise (KeyError key).
Proof.
  induction d as [|[k v] d IH]; simpl; [reflexivity|].
  destruct (String.eqb k key); [discriminate | exact IH].
Qed.

(** X5: when the insert gives back a first row that has no "id", the
    handler answers 500 with the detail ['id'] (the text of the
    [KeyError]), although the insert has been made. *)
Theorem first_row_without_id_is_server_error key groq ins (t : trace) :
  (forall data row rest,
      let a := gateway_analysis key groq (transcript_prompt data) in
      ins "transcripts" (transcript_row data a) = Return (row :: rest) ->
      contains row "id" = false ->
      serve (analyze_transcript key groq ins data) t =
        ({| status := 500; body := JObj [("detail", JStr "'id'")] |},
         (t ++ model_calls key (transcript_prompt data))
           ++ [EvInsert "transcripts" (transcript_row data a)])) /\
  (forall data row rest,
      let a := gateway_analysis key groq (icebreaker_prompt data) in
      ins "icebreakers" (icebreaker_row data a) = Return (row :: rest) ->
      contains row "id" = false ->
      serve (generate_icebreaker key groq ins data) t =
        ({| status := 500; body := JObj [("detail", JStr "'id'")] |},
         (t ++ model_calls key (icebreaker_prompt data))
           ++ [EvInsert "icebreakers" (icebreaker_row data a)])).
Proof.
  split; intros data row rest a Hins Hid.
  - rewrite (analyze_transcript_run _ _ _ _ _ _ _ (call_ai_run _ _ _ _)).
    unfold after_analysis. fold a. rewrite Hins. simpl.
    now rewrite (getitem_absent _ _ Hid).
  - rewrite (generate_icebreaker_run _ _ _ _ _ _ _ (call_ai_run _ _ _ _)).
    unfold after_analysis. fold a. rewrite Hins. simpl.
    now rewrite (getitem_absent _ _ Hid).
Qed.

Lemma first_row_without_id_is_server_error_witness :
  serve (analyze_transcript None good_job store_without_id acme) [] =
    ({| status := 500; body := JObj [("detail", JStr "'id'")] |},
     ([] ++ model_calls None (transcript_prompt acme))
       ++ [EvInsert "transcripts"
             (transcript_row acme (gateway_analysis None good_job (transcript_prompt acme)))]) /\
  serve (generate_icebreaker (Some "gsk") model_down store_without_id jane) [] =
    ({| status := 500; body := JObj [("detail", JStr "'id'")] |},
     ([] ++ model_calls (Some "gsk") (icebreaker_prompt jane))
       ++ [EvInsert "icebreakers"
             (icebreaker_row jane
                (gateway_analysis (Some "gsk") model_down (icebreaker_prompt jane)))]).
Proof.
  split.
  - eapply (proj1 (first_row_without_id_is_server_error None good_job store_without_id [])
              acme); reflexivity.
  - eapply (proj2 (first_row_without_id_is_server_error (Some "gsk") model_down
                     store_without_id []) jane); reflexivity.
Defined.

(** X6: [get_feed] only reads.  It asks for the 20 newest rows of
    "transcripts" and then, unless that read raised, for the 20 newest
    rows of "icebreakers", both ordered by [created_at] descending; it
    makes no other call, neither an insert nor a model request. *)
Theorem get_feed_only_reads sel py_repr (t : trace) :
  snd (serve (get_feed sel py_repr) t) =
    t ++ EvSelect "transcripts" "created_at" true 20
         :: match sel "transcripts" with
            | Return _ => [EvSelect "icebreakers" "created_at" true 20]
            | Raise _ => []
            end.
Proof.
  unfold serve, get_feed, try_except, bind, table_select, call, lift, raise, ret.
  destruct (sel "transcripts") as [ts|]; [|reflexivity].
  rewrite <- app_assoc. simpl.
  destruct (sel "icebreakers") as [ics|]; [|reflexivity].
  destruct (for_each transcript_item ts); [|reflexivity].
  destruct (for_each (icebreaker_item py_repr) ics); [|reflexivity].
  destruct (sort_reverse created_at_key _); reflexivity.
Qed.

(** * Further properties of the feed *)

Lemma for_each_Forall2 {A B} (f : A -> result B) (l : list A) (r : list B) :
  for_each f l = Return r -> Forall2 (fun x y => f x = Return y) l r.
Proof.
  revert r. induction l as [|x l IH]; simpl; intros r H.
  - injection H as <-. constructor.
  - destruct (f x) as [y|] eqn:Hy; try discriminate.
    destruct (for_each f l) as [ys|]; try discriminate.
    injection H as <-. constructor; [exact Hy | now apply IH].
Qed.

Lemma for_each_raise_only {A B} (f : A -> result B) (e0 : exn) :
  (forall x e, f x = Raise e -> e = e0) ->
  forall l e, for_each f l = Raise e -> e = e0.
Proof.
  intros Hf. induction l as [|x l IH]; simpl; intros e H; [discriminate|].
  destruct (f x) as [y|e1] eqn:Hx.
  - destruct (for_each f l) as [ys|e2]; [discriminate|].
    injection H as <-. now apply IH.
  - injection H as <-. now apply (Hf x).
Qed.

Lemma for_each_raises {A B} (f : A -> result B) (e0 : exn) (l : list A) :
  (forall x e, f x = Raise e -> e = e0) ->
  Exists (fun x => exists e, f x = Raise e) l ->
  for_each f l = Raise e0.
Proof.
  intros Hf Hex.
  destruct (for_each f l) as [r|e] eqn:Hr.
  - exfalso. apply for_each_Forall2 in Hr.
    induction Hr as [|x y l r Hxy _ IH]; inversion Hex as [? ? [e He]|]; subst.
    + congruence.
    + now apply IH.
  - f_equal. now apply (for_each_raise_only f e0 Hf l).
Qed.

Lemma transcript_item_raise (item : dict) (e : exn) :
  transcript_item item = Raise e -> e = KeyError "id".
Proof.
  unfold transcript_item. destruct (getitem item "id") eqn:Hid; [discriminate|].
  intros H. injection H as <-.
  induction item as [|[k v] item IH]; simpl in Hid.
  - congruence.
  - destruct (String.eqb k "id"); [discriminate | now apply IH].
Qed.

Lemma icebreaker_item_raise py_repr (item : dict) (e : exn) :
  icebreaker_item py_repr item = Raise e -> e = KeyError "id".
Proof.
  unfold icebreaker_item. destruct (getitem item "id") eqn:Hid; [discriminate|].
  intros H. injection H as <-.
  induction item as [|[k v] item IH]; simpl in Hid.
  - congruence.
  - destruct (String.eqb k "id"); [discriminate | now apply IH].
Qed.

(** X7: when both reads return but some row, of either table, has no
    "id", [get_feed] answers 500 with the detail ['id'] and returns no
    items, however many well-formed rows there are. *)
Theorem feed_row_without_id_is_server_error sel py_repr (t : trace) (ts ics : list dict) :
  sel "transcripts" = Return ts ->
  sel "icebreakers" = Return ics ->
  Exists (fun item => contains item "id" = false) (ts ++ ics) ->
  serve (get_feed sel py_repr) t =
    ({| status := 500; body := JObj [("detail", JStr "'id'")] |},
     (t ++ [EvSelect "transcripts" "created_at" true 20])
       ++ [EvSelect "icebreakers" "created_at" true 20]).
Proof.
  intros Hts Hics Hex.
  unfold serve, get_feed, try_except, bind, table_select, call, lift, raise, ret.
  rewrite Hts, Hics.
  apply Exists_app in Hex. destruct Hex as [Hex|Hex].
  - rewrite (for_each_raises transcript_item (KeyError "id") ts transcript_item_raise).
    + reflexivity.
    + eapply Exists_impl; [|exact Hex]. intros item Hid. simpl in Hid.
      unfold transcript_item. rewrite (getitem_absent _ _ Hid). eauto.
  - destruct (for_each transcript_item ts) as [fts|e] eqn:Hfts.
    + rewrite (for_each_raises (icebreaker_item py_repr) (KeyError "id") ics
                 (icebreaker_item_raise py_repr)).
      * reflexivity.
      * eapply Exists_impl; [|exact Hex]. intros item Hid. simpl in Hid.
        unfold icebreaker_item. rewrite (getitem_absent _ _ Hid). eauto.
    + now rewrite (for_each_raise_only _ _ transcript_item_raise _ _ Hfts).
Qed.

Lemma feed_row_without_id_is_server_error_witness :
  serve (get_feed no_id_select (fun _ => "")) [] =
    ({| status := 500; body := JObj [("detail", JStr "'id'")] |},
     ([] ++ [EvSelect "transcripts" "created_at" true 20])
       ++ [EvSelect "icebreakers" "created_at" true 20]).
Proof.
  eapply (feed_row_without_id_is_server_error no_id_select (fun _ => "") []).
  - reflexivity.
  - reflexivity.
  - apply Exists_cons_tl, Exists_cons_hd. reflexivity.
Defined.

(** Two keys that [<] accepts are of one kind. *)
Lemma py_lt_same_kind (a b : json) (c : bool) :
  py_lt a b = Return c ->
  exists K, kind_of a = Some K /\ kind_of b = Some K.
Proof.
  destruct a, b; simpl; try discriminate; eauto.
Qed.

Section SortKinds.
Context {A : Type}.
Variable key : A -> json.

Lemma insert_desc_head_kind (x z : A) (s r : list A) :
  insert_desc key x (z :: s) = Return r ->
  exists K, kind_of (key x) = Some K /\ kind_of (key z) = Some K.
Proof.
  simpl. destruct (py_lt (key x) (key z)) as [c|] eqn:Hlt; [|discriminate].
  intros _. eapply py_lt_same_kind; exact Hlt.
Qed.

(** A sort of two or more elements that goes through has compared every
    element with another one, so all keys are of one kind. *)
Lemma sort_reverse_one_kind (l r : list A) :
  sort_reverse key l = Return r -> 2 <= List.length l ->
  exists K, Forall (fun x => kind_of (key x) = Some K) l.
Proof.
  revert r. induction l as [|x l IH]; simpl; intros r H Hlen; [lia|].
  destruct (sort_reverse key l) as [s|] eqn:Hs; [|discriminate].
  pose proof (sort_reverse_perm key _ _ Hs) as Hperm.
  destruct s as [|z s].
  { apply Permutation_length in Hperm. simpl in Hperm. lia. }
  destruct (insert_desc_head_kind _ _ _ _ H) as (K & Hx & Hz).
  exists K. constructor; [exact Hx|].
  destruct l as [|y [|y' l]].
  - simpl in Hlen. lia.
  - apply Permutation_length_1_inv in Hperm. injection Hperm as <- _.
    constructor; [exact Hz | constructor].
  - destruct (IH _ eq_refl) as [K' HK']; [simpl; lia|].
    assert (Hin : In z (y :: y' :: l)).
    { eapply Permutation_in; [apply Permutation_sym; exact Hperm | now left]. }
    rewrite Forall_forall in HK'. pose proof (HK' z Hin) as Hz'.
    assert (K' = K) by congruence. subst K'.
    apply Forall_forall. exact HK'.
Qed.
End SortKinds.

Lemma transcript_item_key (item fi : dict) :
  transcript_item item = Return fi -> created_at_key fi = created_at_key item.
Proof.
  unfold transcript_item. destruct (getitem item "id"); [|discriminate].
  intros H. injection H as <-. reflexivity.
Qed.

Lemma icebreaker_item_key py_repr (item fi : dict) :
  icebreaker_item py_repr item = Return fi -> created_at_key fi = created_at_key item.
Proof.
  unfold icebreaker_item. destruct (getitem item "id"); [|discriminate].
  intros H. injection H as <-. reflexivity.
Qed.

(** The mapped items carry the [created_at] of their rows, one for one. *)
Lemma mapped_keys py_repr (ts ics fts fis : list dict) :
  for_each transcript_item ts = Return fts ->
  for_each (icebreaker_item py_repr) ics = Return fis ->
  Forall2 (fun item fi => created_at_key fi = created_at_key item) (ts ++ ics) (fts ++ fis).
Proof.
  intros Hfts Hfis. apply Forall2_app.
  - eapply Forall2_impl; [|apply for_each_Forall2; exact Hfts].
    exact transcript_item_key.
  - eapply Forall2_impl; [|apply for_each_Forall2; exact Hfis].
    exact (icebreaker_item_key py_repr).
Qed.

(** X8: with two or more rows in all, a [created_at] that is null, or a
    string [created_at] beside a number, makes the sort raise a
    [TypeError], and [get_feed] answers 500 instead of a feed. *)
Theorem feed_unordered_timestamps_is_server_error sel py_repr (t : trace) (ts ics : list dict) :
  sel "transcripts" = Return ts ->
  sel "icebreakers" = Return ics ->
  2 <= List.length (ts ++ ics) ->
  Exists (fun item => created_at_key item = JNull) (ts ++ ics) \/
  (Exists (fun item => kind_of (created_at_key item) = Some StrKey) (ts ++ ics) /\
   Exists (fun item => kind_of (created_at_key item) = Some NumKey) (ts ++ ics)) ->
  status (fst (serve (get_feed sel py_repr) t)) = 500%Z.
Proof.
  intros Hts Hics Hlen Hbad.
  destruct (serve (get_feed sel py_repr) t) as [resp t'] eqn:Hserve.
  assert (Hans : ok_or_server_error (fst (serve (get_feed sel py_repr) t)))
    by apply guarded_answer.
  rewrite Hserve in Hans. simpl in *.
  destruct Hans as [H200 | [H500 _]]; [|exact H500]. exfalso.
  destruct (get_feed_200 _ _ _ _ _ Hserve H200)
    as (ts' & ics' & fts & fis & feed & Hts' & Hics' & Hfts & Hfis & Hsort & _).
  rewrite Hts in Hts'. rewrite Hics in Hics'.
  injection Hts' as <-. injection Hics' as <-.
  pose proof (mapped_keys py_repr _ _ _ _ Hfts Hfis) as Hkeys.
  destruct (sort_reverse_one_kind created_at_key _ _ Hsort) as [K HK].
  { rewrite <- (Forall2_length Hkeys). exact Hlen. }
  assert (HKrows : Forall (fun item => kind_of (created_at_key item) = Some K) (ts ++ ics)).
  { clear - Hkeys HK. induction Hkeys as [|x y l r Hxy _ IH]; constructor.
    - inversion HK; subst. congruence.
    - apply IH. now inversion HK. }
  rewrite Forall_forall in HKrows.
  destruct Hbad as [Hnull | [Hstr Hnum]].
  - apply Exists_exists in Hnull. destruct Hnull as (x & Hin & Hx).
    specialize (HKrows x Hin). rewrite Hx in HKrows. discriminate.
  - apply Exists_exists in Hstr. destruct Hstr as (x & Hin & Hx).
    apply Exists_exists in Hnum. destruct Hnum as (y & Hiny & Hy).
    pose proof (HKrows x Hin). pose proof (HKrows y Hiny). congruence.
Qed.

Lemma feed_unordered_timestamps_is_server_error_witness :
  status (fst (serve (get_feed null_timestamp_select (fun _ => "")) [])) = 500%Z.
Proof.
  eapply (feed_unordered_timestamps_is_server_error null_timestamp_select (fun _ => "") []).
  - reflexivity.
  - reflexivity.
  - simpl. lia.
  - left. apply Exists_cons_hd. reflexivity.
Defined.

Lemma Permutation_filter_length {A} (p : A -> bool) (l r : list A) :
  Permutation l r -> List.length (filter p l) = List.length (filter p r).
Proof.
  induction 1 as [|x l r _ IH|x y l|l m r _ IH1 _ IH2]; simpl.
  - reflexivity.
  - destruct (p x); simpl; now rewrite IH.
  - destruct (p x), (p y); reflexivity.
  - now rewrite IH1.
Qed.

Lemma filter_all {A} (p : A -> bool) (l : list A) :
  Forall (fun x => p x = true) l -> filter p l = l.
Proof.
  induction 1 as [|x l Hx _ IH]; simpl; [reflexivity|]. now rewrite Hx, IH.
Qed.

Lemma filter_none {A} (p : A -> bool) (l : list A) :
  Forall (fun x => p x = false) l -> filter p l = [].
Proof.
  induction 1 as [|x l Hx _ IH]; simpl; [reflexivity|]. now rewrite Hx.
Qed.

Lemma for_each_length {A B} (f : A -> result B) (l : list A) (r : list B) :
  for_each f l = Return r -> List.length r = List.length l.
Proof.
  intros H. symmetry. exact (Forall2_length (for_each_Forall2 _ _ _ H)).
Qed.

Lemma transcript_item_keys (item fi : dict) :
  transcript_item item = Return fi ->
  keys fi = ["id"; "type"; "title"; "description"; "date"; "analysis"; "created_at"] /\
  is_type "transcript" fi = true /\ is_type "icebreaker" fi = false.
Proof.
  unfold transcript_item. destruct (getitem item "id"); [|discriminate].
  intros H. injection H as <-. repeat split.
Qed.

Lemma icebreaker_item_keys py_repr (item fi : dict) :
  icebreaker_item py_repr item = Return fi ->
  keys fi = ["id"; "type"; "title"; "description"; "analysis"; "created_at"] /\
  is_type "transcript" fi = false /\ is_type "icebreaker" fi = true.
Proof.
  unfold icebreaker_item. destruct (getitem item "id"); [|discriminate].
  intros H. injection H as <-. repeat split.
Qed.

(** X9: a returned feed has exactly one item per row read: as many
    transcript items as "transcripts" rows and as many icebreaker items
    as "icebreakers" rows.  The handler drops nothing, repeats nothing
    and applies no limit of its own after the merge, so the feed is as
    long as the two reads together. *)
Theorem feed_has_one_item_per_row sel py_repr (t t' : trace) (resp : response) :
  serve (get_feed sel py_repr) t = (resp, t') ->
  status resp = 200%Z ->
  exists ts ics feed,
    sel "transcripts" = Return ts /\
    sel "icebreakers" = Return ics /\
    body resp = feed_body feed /\
    List.length feed = List.length ts + List.length ics /\
    List.length (filter (is_type "transcript") feed) = List.length ts /\
    List.length (filter (is_type "icebreaker") feed) = List.length ics.
Proof.
  intros H Hst.
  destruct (get_feed_200 _ _ _ _ _ H Hst)
    as (ts & ics & fts & fis & feed & Hts & Hics & Hfts & Hfis & Hsort & Hbody).
  exists ts, ics, feed. repeat (split; [assumption|]).
  pose proof (sort_reverse_perm _ _ _ Hsort) as Hperm.
  assert (Ht : Forall (fun x => is_type "transcript" x = true
                                /\ is_type "icebreaker" x = false) fts).
  { eapply for_each_Forall; [|exact Hfts].
    intros x y Hxy. now destruct (transcript_item_keys _ _ Hxy) as (_ & ? & ?). }
  assert (Hi : Forall (fun x => is_type "transcript" x = false
                                /\ is_type "icebreaker" x = true) fis).
  { eapply for_each_Forall; [|exact Hfis].
    intros x y Hxy. now destruct (icebreaker_item_keys _ _ _ Hxy) as (_ & ? & ?). }
  rewrite <- (for_each_length _ _ _ Hfts), <- (for_each_length _ _ _ Hfis).
  split; [|split].
  - rewrite <- (Permutation_length Hperm). apply length_app.
  - rewrite <- (Permutation_filter_length _ _ _ Hperm), filter_app.
    rewrite (filter_all _ fts), (filter_none _ fis), app_nil_r; [reflexivity| |].
    + eapply Forall_impl; [|exact Hi]. now intros x [? ?].
    + eapply Forall_impl; [|exact Ht]. now intros x [? ?].
  - rewrite <- (Permutation_filter_length _ _ _ Hperm), filter_app.
    rewrite (filter_none _ fts), (filter_all _ fis); [reflexivity| |].
    + eapply Forall_impl; [|exact Hi]. now intros x [? ?].
    + eapply Forall_impl; [|exact Ht]. now intros x [? ?].
Qed.

Lemma feed_has_one_item_per_row_witness :
  exists ts ics feed,
    tie_select "transcripts" = Return ts /\
    tie_select "icebreakers" = Return ics /\
    body (fst (serve (get_feed tie_select (fun _ => "")) [])) = feed_body feed /\
    List.length feed = List.length ts + List.length ics /\
    List.length (filter (is_type "transcript") feed) = List.length ts /\
    List.length (filter (is_type "icebreaker") feed) = List.length ics.
Proof.
  apply (feed_has_one_item_per_row tie_select (fun _ => "") []
           (snd (serve (get_feed tie_select (fun _ => "")) []))).
  - reflexivity.
  - reflexivity.
Defined.

(** X10: every item of a returned feed has one of two shapes.  A
    transcript item has the keys id, type, title, description, date,
    analysis and created_at, in this order; an icebreaker item has the
    same keys without date. *)
Theorem feed_item_shapes sel py_repr (t t' : trace) (resp : response) :
  serve (get_feed sel py_repr) t = (resp, t') ->
  status resp = 200%Z ->
  exists feed,
    body resp = feed_body feed /\
    Forall (fun x =>
              (getitem x "type" = Return (JStr "transcript") /\
               keys x = ["id"; "type"; "title"; "description"; "date"; "analysis";
                         "created_at"]) \/
              (getitem x "type" = Return (JStr "icebreaker") /\
               keys x = ["id"; "type"; "title"; "description"; "analysis"; "created_at"]))
           feed.
Proof.
  intros H Hst.
  destruct (get_feed_200 _ _ _ _ _ H Hst)
    as (ts & ics & fts & fis & feed & _ & _ & Hfts & Hfis & Hsort & Hbody).
  exists feed. split; [exact Hbody|].
  apply (Permutation_Forall (sort_reverse_perm _ _ _ Hsort)).
  apply Forall_app. split.
  - eapply for_each_Forall; [|exact Hfts]. intros x y Hxy. left.
    split; [exact (transcript_item_type _ _ Hxy) | apply (transcript_item_keys _ _ Hxy)].
  - eapply for_each_Forall; [|exact Hfis]. intros x y Hxy. right.
    split; [exact (icebreaker_item_type _ _ _ Hxy) | apply (icebreaker_item_keys _ _ _ Hxy)].
Qed.

Lemma feed_item_shapes_witness :
  exists feed,
    body (fst (serve (get_feed one_each_select (fun _ => "")) [])) = feed_body feed /\
    Forall (fun x =>
              (getitem x "type" = Return (JStr "transcript") /\
               keys x = ["id"; "type"; "title"; "description"; "date"; "analysis";
                         "created_at"]) \/
              (getitem x "type" = Return (JStr "icebreaker") /\
               keys x = ["id"; "type"; "title"; "description"; "analysis"; "created_at"]))
           feed.
Proof.
  apply (feed_item_shapes one_each_select (fun _ => "") []
           (snd (serve (get_feed one_each_select (fun _ => "")) []))).
  - reflexivity.
  - reflexivity.
Defined.

(** ** The order of the whole feed *)

Lemma ascii_compare_refl (a : ascii) : Ascii.compare a a = Eq.
Proof.
  unfold Ascii.compare. apply N.compare_refl.
Qed.

Lemma ascii_compare_lt_trans (a b c : ascii) :
  Ascii.compare a b = Lt -> Ascii.compare b c = Lt -> Ascii.compare a c = Lt.
Proof.
  unfold Ascii.compare. rewrite !N.compare_lt_iff. apply N.lt_trans.
Qed.

Lemma string_compare_lt_trans (a b c : string) :
  String.compare a b = Lt -> String.compare b c = Lt -> String.compare a c = Lt.
Proof.
  revert b c. induction a as [|x a IH]; intros [|y b] [|z c]; simpl;
    try discriminate; try reflexivity.
  destruct (Ascii.compare x y) eqn:Hxy; try discriminate;
    destruct (Ascii.compare y z) eqn:Hyz; try discriminate; intros Hab Hbc.
  - apply Ascii.compare_eq_iff in Hxy, Hyz. subst.
    rewrite ascii_compare_refl. now apply (IH b).
  - apply Ascii.compare_eq_iff in Hxy. subst. now rewrite Hyz.
  - apply Ascii.compare_eq_iff in Hyz. subst. now rewrite Hxy.
  - now rewrite (ascii_compare_lt_trans _ _ _ Hxy Hyz).
Qed.

Lemma string_not_ltb_trans (a b c : string) :
  String.ltb a b = false -> String.ltb b c = false -> String.ltb a c = false.
Proof.
  unfold String.ltb. intros Hab Hbc.
  destruct (String.compare a c) eqn:Hac; try reflexivity. exfalso.
  destruct (String.compare a b) eqn:Hab'; try discriminate.
  - apply String.compare_eq_iff in Hab'. subst. now rewrite Hac in Hbc.
  - assert (Hba : String.compare b a = Lt).
    { rewrite String.compare_antisym, Hab'. reflexivity. }
    now rewrite (string_compare_lt_trans _ _ _ Hba Hac) in Hbc.
Qed.

Lemma py_not_lt_trans (a b c : json) :
  py_lt a b = Return false -> py_lt b c = Return false -> py_lt a c = Return false.
Proof.
  unfold py_lt.
  destruct a, b; simpl; try discriminate; destruct c; simpl; try discriminate;
    intros Hab Hbc; injection Hab as Hab; injection Hbc as Hbc; f_equal;
    try (apply Z.ltb_ge; apply Z.ltb_ge in Hab, Hbc; lia).
  eapply string_not_ltb_trans; eassumption.
Qed.

Lemma StronglySorted_pairs {A} (R : A -> A -> Prop) (l : list A) :
  StronglySorted R l -> ForallOrdPairs R l.
Proof.
  induction 1; constructor; assumption.
Qed.

(** X11: a returned feed is ordered as a whole, not only pair by pair:
    whichever two items are taken, the one that stands earlier has a
    [created_at] greater than or equal to that of the later one. *)
Theorem feed_globally_ordered sel py_repr (t t' : trace) (resp : response) :
  serve (get_feed sel py_repr) t = (resp, t') ->
  status resp = 200%Z ->
  exists feed,
    body resp = feed_body feed /\
    forall m n a b,
      nth_error feed m = Some a ->
      nth_error feed n = Some b ->
      m < n ->
      py_ge (created_at_key a) (created_at_key b) = Return true.
Proof.
  intros H Hst.
  destruct (get_feed_200 _ _ _ _ _ H Hst)
    as (ts & ics & fts & fis & feed & _ & _ & _ & _ & Hsort & Hbody).
  exists feed. split; [exact Hbody|].
  intros m n a b Ha Hb Hmn.
  destruct (nth_error_two _ _ _ _ _ Ha Hb Hmn) as (l1 & l2 & l3 & Hfeed).
  apply py_lt_ge.
  refine (ForallOrdPairs_split (not_below created_at_key) _ _ _ _ _ _ _ Hfeed).
  apply StronglySorted_pairs, Sorted_StronglySorted.
  - intros x y z Hxy Hyz. exact (py_not_lt_trans _ _ _ Hxy Hyz).
  - exact (sort_reverse_sorted _ _ _ Hsort).
Qed.

Lemma feed_globally_ordered_witness :
  exists feed,
    body (fst (serve (get_feed tie_select (fun _ => "")) [])) = feed_body feed /\
    forall m n a b,
      nth_error feed m = Some a ->
      nth_error feed n = Some b ->
      m < n ->
      py_ge (created_at_key a) (created_at_key b) = Return true.
Proof.
  apply (feed_globally_ordered tie_select (fun _ => "") []
           (snd (serve (get_feed tie_select (fun _ => "")) []))).
  - reflexivity.
  - reflexivity.
Defined.

Section SortStable.
Context {A : Type}.
Variable key : A -> json.
Variable p : A -> bool.
Hypothesis p_ties : forall x y, p x = true -> p y = true ->
  py_lt (key x) (key y) <> Return true.

Lemma insert_desc_filter (x : A) (l r : list A) :
  insert_desc key x l = Return r -> filter p r = filter p (x :: l).
Proof.
  revert r. induction l as [|y l IH]; simpl; intros r H.
  - injection H as <-. reflexivity.
  - destruct (py_lt (key x) (key y)) as [[|]|] eqn:Hlt; try discriminate.
    + destruct (insert_desc key x l) as [r'|]; try discriminate.
      injection H as <-. simpl. rewrite (IH _ eq_refl). simpl.
      destruct (p x) eqn:Hx, (p y) eqn:Hy; try reflexivity.
      destruct (p_ties x y Hx Hy Hlt).
    + injection H as <-. reflexivity.
Qed.

Lemma sort_reverse_filter (l r : list A) :
  sort_reverse key l = Return r -> filter p r = filter p l.
Proof.
  revert r. induction l as [|x l IH]; simpl; intros r H.
  - injection H as <-. reflexivity.
  - destruct (sort_reverse key l) as [s|]; try discriminate.
    rewrite (insert_desc_filter _ _ _ H). simpl. now rewrite (IH _ eq_refl).
Qed.
End SortStable.

Lemma created_at_is_tie (k : string) (x y : dict) :
  created_at_is k x = true -> created_at_is k y = true ->
  py_lt (created_at_key x) (created_at_key y) <> Return true.
Proof.
  unfold created_at_is.
  destruct (created_at_key x) as [| | |s| |]; try discriminate.
  destruct (created_at_key y) as [| | |u| |]; try discriminate.
  intros Hs Hu. apply String.eqb_eq in Hs, Hu. subst. apply py_lt_irrefl.
Qed.

(** X12: the sort of the feed is stable in full.  For every timestamp,
    the items of a returned feed that carry it stand in the order in
    which they were appended: the transcript items in the order the
    store returned their rows, then the icebreaker items in the order the
    store returned theirs. *)
Theorem feed_keeps_read_order_on_ties sel py_repr (t t' : trace) (resp : response) :
  serve (get_feed sel py_repr) t = (resp, t') ->
  status resp = 200%Z ->
  exists ts ics fts fis feed,
    sel "transcripts" = Return ts /\
    sel "icebreakers" = Return ics /\
    for_each transcript_item ts = Return fts /\
    for_each (icebreaker_item py_repr) ics = Return fis /\
    body resp = feed_body feed /\
    forall k, filter (created_at_is k) feed
              = filter (created_at_is k) fts ++ filter (created_at_is k) fis.
Proof.
  intros H Hst.
  destruct (get_feed_200 _ _ _ _ _ H Hst)
    as (ts & ics & fts & fis & feed & Hts & Hics & Hfts & Hfis & Hsort & Hbody).
  exists ts, ics, fts, fis, feed. repeat (split; [assumption|]).
  intros k. rewrite <- filter_app.
  exact (sort_reverse_filter created_at_key _ (created_at_is_tie k) _ _ Hsort).
Qed.

Lemma feed_keeps_read_order_on_ties_witness :
  exists ts ics fts fis feed,
    tie_select "transcripts" = Return ts /\
    tie_select "icebreakers" = Return ics /\
    for_each transcript_item ts = Return fts /\
    for_each (icebreaker_item (fun _ => "")) ics = Return fis /\
    body (fst (serve (get_feed tie_select (fun _ => "")) [])) = feed_body feed /\
    forall k, filter (created_at_is k) feed
              = filter (created_at_is k) fts ++ filter (created_at_is k) fis.
Proof.
  apply (feed_keeps_read_order_on_ties tie_select (fun _ => "") []
           (snd (serve (get_feed tie_select (fun _ => "")) []))).
  - reflexivity.
  - reflexivity.
Defined.

Lemma sort_reverse_of_sorted {A} (key : A -> json) (l : list A) :
  Sorted (not_below key) l -> sort_reverse key l = Return l.
Proof.
  induction 1 as [|x l _ IH Hhd]; simpl; [reflexivity|].
  rewrite IH. destruct Hhd as [|y l Hxy]; simpl; [reflexivity|].
  unfold not_below in Hxy. now rewrite Hxy.
Qed.

Lemma Sorted_by_keys {A B} (ka : A -> json) (kb : B -> json) (l : list A) (r : list B) :
  Forall2 (fun x y => kb y = ka x) l r ->
  Sorted (fun a b => py_ge (ka a) (ka b) = Return true) l ->
  Sorted (not_below kb) r.
Proof.
  induction 1 as [|x y l r Hxy Hlr IH]; intros Hs; [constructor|].
  inversion Hs as [|? ? Hs' Hhd]; subst. constructor; [now apply IH|].
  destruct Hlr as [|x' y' l r Hxy' _]; constructor.
  inversion Hhd; subst. unfold not_below. rewrite Hxy, Hxy'. now apply py_lt_ge.
Qed.

(** X13: rows that already arrive in feed order are left in it.  When
    every row has an id and the rows, transcripts first and icebreakers
    after, are in non-increasing [created_at] order, the feed is the
    mapped items in exactly that order; so with one table empty the feed
    follows the order in which the store returned the other. *)
Theorem feed_keeps_descending_rows sel py_repr (t : trace) (ts ics : list dict) :
  sel "transcripts" = Return ts ->
  sel "icebreakers" = Return ics ->
  Forall has_id (ts ++ ics) ->
  Sorted not_older (ts ++ ics) ->
  exists fts fis,
    for_each transcript_item ts = Return fts /\
    for_each (icebreaker_item py_repr) ics = Return fis /\
    serve (get_feed sel py_repr) t =
      ({| status := 200; body := feed_body (fts ++ fis) |},
       (t ++ [EvSelect "transcripts" "created_at" true 20])
         ++ [EvSelect "icebreakers" "created_at" true 20]).
Proof.
  intros Hts Hics Hid Hsorted.
  apply Forall_app in Hid. destruct Hid as [Hidt Hidi].
  destruct (for_each_returns transcript_item has_id (fun _ => True)) with (l := ts)
    as (fts & Hfts & _); [|exact Hidt|].
  { intros x [id Hx]. unfold transcript_item. rewrite Hx. eauto. }
  destruct (for_each_returns (icebreaker_item py_repr) has_id (fun _ => True)) with (l := ics)
    as (fis & Hfis & _); [|exact Hidi|].
  { intros x [id Hx]. unfold icebreaker_item. rewrite Hx. eauto. }
  exists fts, fis. repeat (split; [assumption|]).
  assert (Hsort : sort_reverse created_at_key (fts ++ fis) = Return (fts ++ fis)).
  { apply sort_reverse_of_sorted.
    eapply Sorted_by_keys; [exact (mapped_keys py_repr _ _ _ _ Hfts Hfis) | exact Hsorted]. }
  unfold serve, get_feed, try_except, bind, table_select, call, lift, ret.
  now rewrite Hts, Hics, Hfts, Hfis, Hsort.
Qed.

Lemma feed_keeps_descending_rows_witness :
  exists fts fis,
    for_each transcript_item
      [[("id", JNum 3); ("created_at", JStr "2024-01-03")];
       [("id", JNum 1); ("created_at", JStr "2024-01-02")]] = Return fts /\
    for_each (icebreaker_item (fun _ => "")) [] = Return fis /\
    serve (get_feed only_transcripts_select (fun _ => "")) [] =
      ({| status := 200; body := feed_body (fts ++ fis) |},
       ([] ++ [EvSelect "transcripts" "created_at" true 20])
         ++ [EvSelect "icebreakers" "created_at" true 20]).
Proof.
  apply (feed_keeps_descending_rows only_transcripts_select (fun _ => "") []).
  - reflexivity.
  - reflexivity.
  - repeat constructor; eexists; reflexivity.
  - repeat constructor.
Defined.

(** * From a submission to the feed *)

(** X14: a record written by a submitting handler comes back in the feed
    with the submitter's own words.  If the store holds the row that
    [analyze_transcript] inserted, with the id and timestamp it assigned,
    the feed item has the request's [company_name], [attendees] and
    [date] as title, description and date and the returned analysis as
    analysis; for a row that [generate_icebreaker] inserted the title
    and the description are built from the request's [username] and
    [role].  The "Unknown ..." texts never show for such records, not
    even for empty fields. *)
Theorem submitted_record_in_feed py_repr (a id created_at : json) (item : dict) :
  (forall data,
      stored_as (transcript_row data a) id created_at item ->
      transcript_item item =
        Return [("id", id);
                ("type", JStr "transcript");
                ("title", JStr data.(company_name));
                ("description", JStr data.(attendees));
                ("date", JStr data.(date));
                ("analysis", a);
                ("created_at", created_at)]) /\
  (forall data,
      stored_as (icebreaker_row data a) id created_at item ->
      icebreaker_item py_repr item =
        Return [("id", id);
                ("type", JStr "icebreaker");
                ("title", JStr ("LinkedIn Icebreaker - " ++ data.(username)));
                ("description", JStr (data.(role) ++ " • Sales Outreach Analysis"));
                ("analysis", a);
                ("created_at", created_at)]).
Proof.
  split; intros data (Hid & Hc & Hrow).
  - unfold transcript_item. rewrite Hid.
    rewrite (get_present item "company_name" _ (JStr data.(company_name)))
      by (apply Hrow; reflexivity).
    rewrite (get_present item "attendees" _ (JStr data.(attendees)))
      by (apply Hrow; reflexivity).
    rewrite (get_present item "date" _ (JStr data.(date))) by (apply Hrow; reflexivity).
    rewrite (get_present item "analysis" _ a) by (apply Hrow; reflexivity).
    now rewrite (get_present item "created_at" _ created_at).
  - unfold icebreaker_item. rewrite Hid.
    rewrite (get_present item "username" _ (JStr data.(username)))
      by (apply Hrow; reflexivity).
    rewrite (get_present item "role" _ (JStr data.(role))) by (apply Hrow; reflexivity).
    rewrite (get_present item "analysis" _ a) by (apply Hrow; reflexivity).
    now rewrite (get_present item "created_at" _ created_at).
Qed.

Lemma getitem_skip (d : dict) (k key : string) (v : json) :
  String.eqb k key = false -> getitem ((k, v) :: d) key = getitem d key.
Proof.
  intros H. simpl. now rewrite H.
Qed.

Lemma submitted_record_in_feed_witness :
  transcript_item acme_stored =
    Return [("id", JNum 7);
            ("type", JStr "transcript");
            ("title", JStr "Acme");
            ("description", JStr "");
            ("date", JStr "");
            ("analysis", success_analysis (JStr "Good job."));
            ("created_at", JStr "2024-01-02T10:00:00+00:00")] /\
  icebreaker_item (fun _ => "") jane_stored =
    Return [("id", JNum 8);
            ("type", JStr "icebreaker");
            ("title", JStr "LinkedIn Icebreaker - Jane");
            ("description", JStr "CTO • Sales Outreach Analysis");
            ("analysis", success_analysis (JStr "Good job."));
            ("created_at", JStr "2024-01-03T10:00:00+00:00")].
Proof.
  split.
  - apply (proj1 (submitted_record_in_feed (fun _ => "") (success_analysis (JStr "Good job."))
                    (JNum 7) (JStr "2024-01-02T10:00:00+00:00") acme_stored) acme).
    repeat split. intros k v Hk. unfold acme_stored.
    destruct (String.eqb "id" k) eqn:Hid.
    { apply String.eqb_eq in Hid. subst k. discriminate Hk. }
    destruct (String.eqb "created_at" k) eqn:Hc.
    { apply String.eqb_eq in Hc. subst k. discriminate Hk. }
    now rewrite !getitem_skip.
  - apply (proj2 (submitted_record_in_feed (fun _ => "") (success_analysis (JStr "Good job."))
                    (JNum 8) (JStr "2024-01-03T10:00:00+00:00") jane_stored) jane).
    repeat split. intros k v Hk. unfold jane_stored.
    destruct (String.eqb "id" k) eqn:Hid.
    { apply String.eqb_eq in Hid. subst k. discriminate Hk. }
    destruct (String.eqb "created_at" k) eqn:Hc.
    { apply String.eqb_eq in Hc. subst k. discriminate Hk. }
    now rewrite !getitem_skip.
Defined.

(** X15: a null in the store is not replaced either.  An icebreaker row
    whose [username] or [role] is null gives the title "LinkedIn
    Icebreaker - None" and the description "None • Sales Outreach
    Analysis", the text an f-string prints for [None]; a transcript row
    whose [company_name] is null gives a null title. *)
Theorem null_names_in_feed py_repr (item fi : dict) :
  (transcript_item item = Return fi ->
   getitem item "company_name" = Return JNull ->
   getitem fi "title" = Return JNull) /\
  (icebreaker_item py_repr item = Return fi ->
   (getitem item "username" = Return JNull ->
    getitem fi "title" = Return (JStr "LinkedIn Icebreaker - None")) /\
   (getitem item "role" = Return JNull ->
    getitem fi "description" = Return (JStr "None • Sales Outreach Analysis"))).
Proof.
  split.
  - unfold transcript_item. destruct (getitem item "id"); [|discriminate].
    intros H Hc. injection H as <-. simpl. now rewrite (get_present _ _ _ _ Hc).
  - unfold icebreaker_item. destruct (getitem item "id"); [|discriminate].
    intros H. injection H as <-. simpl. split; intros Hn.
    + now rewrite (get_present _ _ _ _ Hn).
    + now rewrite (get_present _ _ _ _ Hn).
Qed.

Lemma null_names_in_feed_witness :
  (forall fi, transcript_item null_names_row = Return fi ->
     getitem fi "title" = Return JNull) /\
  (forall fi, icebreaker_item (fun _ => "") null_names_row = Return fi ->
     getitem fi "title" = Return (JStr "LinkedIn Icebreaker - None") /\
     getitem fi "description" = Return (JStr "None • Sales Outreach Analysis")).
Proof.
  split; intros fi H.
  - apply (proj1 (null_names_in_feed (fun _ => "") null_names_row fi) H). reflexivity.
  - destruct (proj2 (null_names_in_feed (fun _ => "") null_names_row fi) H) as [Hu Hr].
    split; [apply Hu | apply Hr]; reflexivity.
Defined.

(** * The prompts and the start-up check *)

(** X16: the icebreaker prompt is never cut short.  Its length is that
    of the fixed text, 1735, plus five times the length of [username],
    four times that of [role], the length of [linkedin_bio] and the
    length of the pitch deck text, which is [deck_url] or, for an empty
    [deck_url], the 22 of "No pitch deck provided" (lengths of the UTF-8
    text; the fixed text is ASCII). *)
Theorem icebreaker_prompt_length (data : IcebreakerRequest) :
  String.length (icebreaker_prompt data) =
    1735 + 5 * String.length data.(username) + 4 * String.length data.(role)
    + String.length data.(linkedin_bio)
    + (if truthy_str data.(deck_url) then String.length data.(deck_url) else 22).
Proof.
  assert (H : icebreaker_prompt data = render icebreaker_template (icebreaker_shown data))
    by reflexivity.
  rewrite H, render_length. simpl.
  destruct (truthy_str (deck_url data)); simpl; lia.
Qed.

(** X17: the start-up check lets the process start exactly when both
    [SUPABASE_URL] and [SUPABASE_KEY] are set to a non-empty text: a
    variable set to the empty string counts as missing, and in every
    other case the process stops with the one [ValueError] message. *)
Theorem supabase_env_check_passes_iff (url key : option string) :
  (supabase_env_check url key = None <->
   exists u k, url = Some u /\ key = Some k /\ u <> "" /\ k <> "") /\
  (supabase_env_check url key = None \/
   supabase_env_check url key =
     Some (ValueError "Supabase URL and KEY must be set in environment variables")).
Proof.
  unfold supabase_env_check. split.
  - destruct url as [[|c u]|], key as [[|d k]|]; simpl; split;
      try discriminate; try (intros (u' & k' & Hu & Hk & Hnu & Hnk); congruence).
    intros _. eexists _, _. repeat split; discriminate.
  - destruct (negb (truthy_env url) || negb (truthy_env key)); auto.
Qed.

Lemma supabase_env_check_passes_iff_witness :
  supabase_env_check (Some "https://project.supabase.co") (Some "service-key") = None.
Proof.
  apply (proj1 (supabase_env_check_passes_iff (Some "https://project.supabase.co")
                  (Some "service-key"))).
  eexists _, _. repeat split; discriminate.
Defined.
